(** * yt-video-downloader.py: progress reporting and format selection

    A shallow embedding of [src/yt-video-downloader.py].  The script is a
    thin command-line front end over the yt-dlp engine; what it computes
    itself is the byte-size formatter [sizeof_fmt], the progress callback
    [progress_hook], and, in [main], the engine options derived from the
    [-f/--format] choice together with the handling of engine failures.

    Python objects are modelled by [pyval] (the scalar values a progress
    event or a metadata record carries), Python floats by the binary64
    instance of the Standard Library's [spec_float], exceptions by the
    [result] type, and standard output by explicit state passing in
    [io].  The built-in operations are those of CPython 3.11. *)

From Stdlib Require Import ZArith String Ascii List Lia.
From Stdlib Require Import Floats.SpecFloat.
From stdpp Require Import gmap strings pretty.

Local Open Scope string_scope.
Local Open Scope Z_scope.

(** ** Python values and exceptions *)

(** The scalar values found in a progress event or in a metadata
    record: [None], integers of arbitrary size, floats and strings. *)
Inductive pyval :=
  | PyNone
  | PyInt (n : Z)
  | PyFloat (x : spec_float)
  | PyStr (s : string).

(** What an exception class derives from, as far as the [except] clauses
    of [main] can tell: [DownloadError] (itself an [Exception]), another
    [Exception], or a [BaseException] that is not an [Exception]
    (KeyboardInterrupt, SystemExit). *)
Inductive exc_base :=
  | FromDownloadError
  | FromException
  | FromBaseException.

(** An exception instance: [exc_name] is [type(e).__name__] and [exc_str]
    is [str(e)]. *)
Record pyexc := PyExc {
  exc_base_of : exc_base;
  exc_name : string;
  exc_str : string
}.

Definition KeyError (key : string) : pyexc :=
  PyExc FromException "KeyError" ("'" ++ key ++ "'").
Definition TypeError (msg : string) : pyexc :=
  PyExc FromException "TypeError" msg.
Definition ValueError (msg : string) : pyexc :=
  PyExc FromException "ValueError" msg.
Definition OverflowError : pyexc :=
  PyExc FromException "OverflowError" "int too large to convert to float".
Definition ZeroDivisionError : pyexc :=
  PyExc FromException "ZeroDivisionError" "float division by zero".

(** A computation that returns a value or raises. *)
Inductive result (A : Type) :=
  | Ok (a : A)
  | Raise (e : pyexc).
Arguments Ok {A} a.
Arguments Raise {A} e.

#[global] Instance result_ret : MRet result := fun A a => Ok a.
#[global] Instance result_bind : MBind result := fun A B f r =>
  match r with
  | Ok a => f a
  | Raise e => Raise e
  end.

Definition type_name (v : pyval) : string :=
  match v with
  | PyNone => "NoneType"
  | PyInt _ => "int"
  | PyFloat _ => "float"
  | PyStr _ => "str"
  end.

(** ** Strings *)

Definition CR : string := String (ascii_of_nat 13) EmptyString.
Definition LF : string := String (ascii_of_nat 10) EmptyString.

Fixpoint repeat_char (c : ascii) (n : nat) : string :=
  match n with
  | O => EmptyString
  | S n' => String c (repeat_char c n')
  end.

(** Right-align [s] in a field of [width] characters, filling with [c]. *)
Definition pad_left (c : ascii) (width : nat) (s : string) : string :=
  repeat_char c (width - String.length s) ++ s.

Fixpoint take_str (n : nat) (s : string) : string :=
  match n, s with
  | S n', String c s' => String c (take_str n' s')
  | _, _ => EmptyString
  end.

Fixpoint drop_str (n : nat) (s : string) : string :=
  match n, s with
  | S n', String _ s' => drop_str n' s'
  | _, _ => s
  end.

(** ** Floats: binary64 *)

Definition prec : Z := 53.
Definition emax : Z := 1024.

Definition float_1024 : spec_float := S754_finite false 4503599627370496 (-42).

Definition float_is_zero (x : spec_float) : bool :=
  match x with
  | S754_zero _ => true
  | _ => false
  end.

Definition float_sign (x : spec_float) : bool :=
  match x with
  | S754_zero s | S754_infinity s | S754_finite s _ _ => s
  | S754_nan => false
  end.

(** [float(n)]: the nearest double, ties to even.  CPython raises
    OverflowError once the rounded value would reach 2^1024, that is from
    2^1024 - 2^970 on (half an ulp above the largest double). *)
Definition int_float_limit : Z := 2 ^ 1024 - 2 ^ 970.

Definition float_of_int (n : Z) : result spec_float :=
  if int_float_limit <=? Z.abs n then Raise OverflowError
  else Ok (binary_normalize prec emax n 0 false).

(** Exact comparison of an integer with a float, as Python compares
    [int] with [float]: [None] when the float is a NaN. *)
Definition int_float_compare (n : Z) (x : spec_float) : option comparison :=
  match x with
  | S754_nan => None
  | S754_infinity s => Some (if s then Gt else Lt)
  | S754_zero _ => Some (n ?= 0)
  | S754_finite s m e =>
      let v := cond_Zopp s (Zpos m) in
      if 0 <=? e then Some (n ?= v * 2 ^ e) else Some (n * 2 ^ (- e) ?= v)
  end.

(** ** The operators the script applies to event values *)

(** [abs(v)] *)
Definition py_abs (v : pyval) : result pyval :=
  match v with
  | PyInt n => Ok (PyInt (Z.abs n))
  | PyFloat x => Ok (PyFloat (SFabs x))
  | _ => Raise (TypeError ("bad operand type for abs(): '" ++ type_name v ++ "'"))
  end.

(** The three-way comparison behind [v < y] and [v >= y] for a float [y]. *)
Definition py_compare_float (v : pyval) (y : spec_float) : option comparison :=
  match v with
  | PyInt n => int_float_compare n y
  | PyFloat x => SFcompare x y
  | _ => None
  end.

(** [v < y] for a float [y] *)
Definition py_lt_float (v : pyval) (y : spec_float) : result bool :=
  match v with
  | PyInt _ | PyFloat _ =>
      Ok match py_compare_float v y with
         | Some Lt => true
         | _ => false
         end
  | _ => Raise (TypeError ("'<' not supported between instances of '"
                           ++ type_name v ++ "' and 'float'"))
  end.

(** [v >= y] for a float [y]; the script does not use it, the
    specification's "absolute value is >= 1024" does. *)
Definition py_ge_float (v : pyval) (y : spec_float) : result bool :=
  match v with
  | PyInt _ | PyFloat _ =>
      Ok match py_compare_float v y with
         | Some Gt | Some Eq => true
         | _ => false
         end
  | _ => Raise (TypeError ("'>=' not supported between instances of '"
                           ++ type_name v ++ "' and 'float'"))
  end.

Definition float_div (x y : spec_float) : result pyval :=
  if float_is_zero y then Raise ZeroDivisionError
  else Ok (PyFloat (SFdiv prec emax x y)).

(** [v / y] for a float [y]: an integer operand is converted first. *)
Definition py_truediv_float (v : pyval) (y : spec_float) : result pyval :=
  match v with
  | PyInt n => x ← float_of_int n; float_div x y
  | PyFloat x => float_div x y
  | _ => Raise (TypeError ("unsupported operand type(s) for /: '"
                           ++ type_name v ++ "' and 'float'"))
  end.

(** Truth value of an object. *)
Definition py_truthy (v : pyval) : bool :=
  match v with
  | PyNone => false
  | PyInt n => negb (n =? 0)
  | PyFloat x => negb (float_is_zero x)
  | PyStr s => negb (String.eqb s "")
  end.

(** [a or b] *)
Definition py_or (a b : pyval) : pyval :=
  if py_truthy a then a else b.

(** [v == s] for a string literal [s] *)
Definition py_eq_str (v : pyval) (s : string) : bool :=
  match v with
  | PyStr t => String.eqb t s
  | _ => false
  end.

(** ** Rendering numbers *)

(** [n] rounded to the nearest multiple of [d], ties to even, divided by
    [d]: the rounding of float formatting. *)
Definition div_half_even (n d : Z) : Z :=
  let q := n / d in
  match 2 * (n mod d) ?= d with
  | Lt => q
  | Gt => q + 1
  | Eq => if Z.even q then q else q + 1
  end.

(** A natural number [n] in decimal with [p] digits after the point;
    [n] counts units of 10^-p. *)
Definition fixed_digits (n : Z) (p : nat) : string :=
  let scale := 10 ^ Z.of_nat p in
  match p with
  | O => pretty n
  | _ => pretty (n / scale) ++ "." ++ pad_left "0" p (pretty (n mod scale))
  end.

(** Presentation type [f] with precision [p] applied to a float: the
    exact binary value, correctly rounded to [p] decimals. *)
Definition format_float_f (p : nat) (x : spec_float) : string :=
  let sign := if float_sign x then "-" else "" in
  match x with
  | S754_nan => "nan"
  | S754_infinity _ => sign ++ "inf"
  | S754_zero _ => sign ++ fixed_digits 0 p
  | S754_finite _ m e =>
      let scaled := Zpos m * 10 ^ Z.of_nat p in
      let n := if 0 <=? e then scaled * 2 ^ e
               else div_half_even scaled (2 ^ (- e)) in
      sign ++ fixed_digits n p
  end.

(** [format(v, "<width>.<p>f")]: an integer is converted to a float
    first; numbers are right-aligned in the field. *)
Definition py_format_f (width p : nat) (v : pyval) : result string :=
  match v with
  | PyInt n => x ← float_of_int n; Ok (pad_left " " width (format_float_f p x))
  | PyFloat x => Ok (pad_left " " width (format_float_f p x))
  | PyStr _ => Raise (ValueError "Unknown format code 'f' for object of type 'str'")
  | PyNone => Raise (TypeError "unsupported format string passed to NoneType.__format__")
  end.

(** *** [repr] of a float: the shortest decimal that reads back as the
    same double *)

(** [num/den < 10^t] *)
Definition below_pow10 (num den t : Z) : bool :=
  if 0 <=? t then num <? den * 10 ^ t else num * 10 ^ (- t) <? den.

(** The least [t], searched upwards from [t0], with [num/den < 10^t]. *)
Fixpoint decimal_point (fuel : nat) (t0 num den : Z) : Z :=
  match fuel with
  | O => t0
  | S fuel' =>
      if below_pow10 num den t0 then t0
      else decimal_point fuel' (t0 + 1) num den
  end.

(** The double nearest to [c * 10^s], for [c > 0]. *)
Definition decimal_to_float (c s : Z) : spec_float :=
  if 0 <=? s then binary_normalize prec emax (c * 10 ^ s) 0 false
  else
    let '(mz, ez, lz) := SFdiv_core_binary prec emax c 0 (10 ^ (- s)) 0 in
    binary_round_aux prec emax false mz ez lz.

Definition spec_float_eqb (x y : spec_float) : bool :=
  match x, y with
  | S754_nan, S754_nan => true
  | S754_zero a, S754_zero b | S754_infinity a, S754_infinity b => Bool.eqb a b
  | S754_finite a m e, S754_finite b m' e' =>
      Bool.eqb a b && Pos.eqb m m' && Z.eqb e e'
  | _, _ => false
  end.

(** The [k]-digit decimals just below and just above [num/den], whose
    decimal point is at [t]: the one that reads back as [x], the nearer
    one when both do. *)
Definition digits_candidate (x : spec_float) (num den t : Z) (k : nat)
  : option (Z * Z) :=
  let s := t - Z.of_nat k in
  let n' := if 0 <=? s then num else num * 10 ^ (- s) in
  let d' := if 0 <=? s then den * 10 ^ s else den in
  let lo := n' / d' in
  let hi := lo + 1 in
  let ok_lo := (0 <? lo) && spec_float_eqb (decimal_to_float lo s) x in
  let ok_hi := spec_float_eqb (decimal_to_float hi s) x in
  let nearer := match 2 * (n' mod d') ?= d' with
                | Lt => lo
                | Gt => hi
                | Eq => if Z.even lo then lo else hi
                end in
  match ok_lo, ok_hi with
  | true, true => Some (nearer, s)
  | true, false => Some (lo, s)
  | false, true => Some (hi, s)
  | false, false => None
  end.

(** Try 1, 2, ... digits; [k] is the next count to try. *)
Fixpoint shortest_digits (fuel : nat) (k : nat) (x : spec_float) (num den t : Z)
  : Z * Z :=
  match fuel with
  | O => (div_half_even (if 0 <=? t - 17 then num else num * 10 ^ (17 - t))
                        (if 0 <=? t - 17 then den * 10 ^ (t - 17) else den),
          t - 17)
  | S fuel' =>
      match digits_candidate x num den t k with
      | Some r => r
      | None => shortest_digits fuel' (S k) x num den t
      end
  end.

(** Drop the trailing zeros of [c * 10^s]. *)
Fixpoint strip_zeros (fuel : nat) (c s : Z) : Z * Z :=
  match fuel with
  | O => (c, s)
  | S fuel' =>
      if (c mod 10 =? 0) && negb (c =? 0) then strip_zeros fuel' (c / 10) (s + 1)
      else (c, s)
  end.

(** Lay out the digit string [ds] with its decimal point at [dp]
    (the value is 0.ds * 10^dp): fixed notation for -4 < dp <= 16,
    exponent notation otherwise. *)
Definition layout_repr (ds : string) (dp : Z) : string :=
  let len := Z.of_nat (String.length ds) in
  if (-4 <? dp) && (dp <=? 16) then
    if dp <=? 0 then "0." ++ repeat_char "0" (Z.to_nat (- dp)) ++ ds
    else if len <=? dp then ds ++ repeat_char "0" (Z.to_nat (dp - len)) ++ ".0"
    else take_str (Z.to_nat dp) ds ++ "." ++ drop_str (Z.to_nat dp) ds
  else
    let ex := dp - 1 in
    take_str 1 ds
    ++ (if 1 <? len then "." ++ drop_str 1 ds else "")
    ++ "e" ++ (if ex <? 0 then "-" else "+")
    ++ pad_left "0" 2 (pretty (Z.abs ex)).

(** [repr(x)], which is also [str(x)] and [format(x, "")]. *)
Definition float_repr (x : spec_float) : string :=
  let sign := if float_sign x then "-" else "" in
  match x with
  | S754_nan => "nan"
  | S754_infinity _ => sign ++ "inf"
  | S754_zero _ => sign ++ "0.0"
  | S754_finite _ m e =>
      let num := if 0 <=? e then Zpos m * 2 ^ e else Zpos m in
      let den := if 0 <=? e then 1 else 2 ^ (- e) in
      let t := decimal_point 800 (-400) num den in
      let '(c, s) := shortest_digits 17 1 (S754_finite false m e) num den t in
      let '(c', s') := strip_zeros 20 c s in
      let ds := pretty c' in
      sign ++ layout_repr ds (Z.of_nat (String.length ds) + s')
  end.

(** *** Integers as text

    CPython bounds the decimal digits of an integer that is converted to
    text ([sys.int_info.default_max_str_digits], 4300 unless the program
    changes it, which the script does not): [str], the substitution of
    an f-string and [format] raise ValueError on a longer integer.  The
    sign is not counted. *)
Definition int_max_str_digits : Z := 4300.

Definition int_str_limit : Z := 10 ^ int_max_str_digits.
Arguments int_str_limit : simpl never.

Definition int_str_error : pyexc :=
  ValueError ("Exceeds the limit (4300 digits) for integer string conversion; "
              ++ "use sys.set_int_max_str_digits() to increase the limit").

(** The text of a value, where it has one. *)
Definition str_text (v : pyval) : string :=
  match v with
  | PyNone => "None"
  | PyInt n => pretty n
  | PyFloat x => float_repr x
  | PyStr s => s
  end.

(** [str(v)], the text an f-string substitutes for [{v}]. *)
Definition py_str (v : pyval) : result string :=
  match v with
  | PyInt n =>
      if int_str_limit <=? Z.abs n then Raise int_str_error else Ok (str_text v)
  | _ => Ok (str_text v)
  end.

(** Presentation type [d] with zero padding ([0<width>d]) applied to an
    integer: the sign comes before the padding. *)
Definition format_d_zero (width : nat) (n : Z) : result string :=
  if int_str_limit <=? Z.abs n then Raise int_str_error
  else if n <? 0 then Ok ("-" ++ pad_left "0" (width - 1) (pretty (Z.abs n)))
  else Ok (pad_left "0" width (pretty n)).

(** [format(v, "0<width>d")]: the presentation type [d] is for integers
    only. *)
Definition py_format_d_zero (width : nat) (v : pyval) : result string :=
  match v with
  | PyInt n => format_d_zero width n
  | PyFloat _ | PyStr _ =>
      Raise (ValueError ("Unknown format code 'd' for object of type '"
                         ++ type_name v ++ "'"))
  | PyNone => Raise (TypeError "unsupported format string passed to NoneType.__format__")
  end.

(** ** [divmod] by 60

    [divmod(v, 60)] on an integer is the floor division and its
    remainder.  On a float CPython computes [fmod(v, 60.0)], which is
    exact and has the sign of [v], takes [(v - mod) / 60.0], moves a
    negative remainder up by 60.0 and the quotient down by 1.0, and
    snaps the quotient to the nearest whole number. *)

Definition float_60 : spec_float := S754_finite false 8444249301319680 (-47).
Definition float_1 : spec_float := S754_finite false 4503599627370496 (-52).
Definition float_half : spec_float := S754_finite false 4503599627370496 (-53).

(** C's [fmod(x, 60.0)] *)
Definition float_fmod_60 (x : spec_float) : spec_float :=
  match x with
  | S754_nan | S754_infinity _ => S754_nan
  | S754_zero s => S754_zero s
  | S754_finite s m e =>
      if 0 <=? e
      then binary_normalize prec emax (cond_Zopp s ((Zpos m * 2 ^ e) mod 60)) 0 s
      else binary_normalize prec emax (cond_Zopp s (Zpos m mod (60 * 2 ^ (- e)))) e s
  end.

(** C's [floor(x)] *)
Definition float_floor (x : spec_float) : spec_float :=
  match x with
  | S754_finite s m e =>
      if 0 <=? e then x
      else
        let q := Zpos m / 2 ^ (- e) in
        let whole := Zpos m mod 2 ^ (- e) =? 0 in
        binary_normalize prec emax
          (if s then (if whole then - q else - (q + 1)) else q) 0 s
  | _ => x
  end.

Definition float_divmod_60 (vx : spec_float) : spec_float * spec_float :=
  let wx := float_60 in
  let mod_ := float_fmod_60 vx in
  let div := SFdiv prec emax (SFsub prec emax vx mod_) wx in
  let '(mod_, div) :=
    if float_is_zero mod_ then (S754_zero false, div)
    else if SFltb mod_ (S754_zero false)
         then (SFadd prec emax mod_ wx, SFsub prec emax div float_1)
         else (mod_, div) in
  let floordiv :=
    if float_is_zero div then S754_zero (float_sign (SFdiv prec emax vx wx))
    else
      let f := float_floor div in
      if SFltb float_half (SFsub prec emax div f)
      then SFadd prec emax f float_1 else f in
  (floordiv, mod_).

(** [divmod(v, 60)] *)
Definition divmod_60 (v : pyval) : result (pyval * pyval) :=
  match v with
  | PyInt n => Ok (PyInt (n / 60), PyInt (n mod 60))
  | PyFloat x => let '(q, r) := float_divmod_60 x in Ok (PyFloat q, PyFloat r)
  | _ => Raise (TypeError ("unsupported operand type(s) for divmod(): '"
                           ++ type_name v ++ "' and 'int'"))
  end.

(** ** Dictionaries *)

(** [d[key]] *)
Definition dict_index (d : gmap string pyval) (key : string) : result pyval :=
  match d !! key with
  | Some v => Ok v
  | None => Raise (KeyError key)
  end.

(** [d.get(key, default)] *)
Definition dict_get_default (d : gmap string pyval) (key : string) (default : pyval)
  : pyval :=
  match d !! key with
  | Some v => v
  | None => default
  end.

(** [d.get(key)] *)
Definition dict_get (d : gmap string pyval) (key : string) : pyval :=
  dict_get_default d key PyNone.

(** ** Standard output *)

(** A computation that writes to standard output and returns or raises;
    what was written before an exception stays written. *)
Definition io (A : Type) : Type := string -> result A * string.

#[global] Instance io_ret : MRet io := fun A a out => (Ok a, out).
#[global] Instance io_bind : MBind io := fun A B f m out =>
  match m out with
  | (Ok a, out') => f a out'
  | (Raise e, out') => (Raise e, out')
  end.

Definition lift {A} (r : result A) : io A := fun out => (r, out).

(** [print(text, end=end_)] *)
Definition print (text end_ : string) : io unit :=
  fun out => (Ok tt, out ++ text ++ end_).

(** ** [sizeof_fmt] *)

Definition units : list string :=
  [""; "Ki"; "Mi"; "Gi"; "Ti"; "Pi"; "Ei"; "Zi"].

(** The [for] loop over the remaining units [us], with its early
    [return], followed by the final [return] once the list is exhausted. *)
Fixpoint sizeof_fmt_loop (us : list string) (num : pyval) (suffix : string)
  : result string :=
  match us with
  | unit_ :: us' =>
      a ← py_abs num;
      below ← py_lt_float a float_1024;
      if below : bool then
        s ← py_format_f 3 1 num;
        Ok (s ++ unit_ ++ suffix)
      else
        num' ← py_truediv_float num float_1024;
        sizeof_fmt_loop us' num' suffix
  | [] =>
      s ← py_format_f 0 1 num;
      Ok (s ++ "Yi" ++ suffix)
  end.

Definition sizeof_fmt (num : pyval) (suffix : string) : result string :=
  sizeof_fmt_loop units num suffix.

(** The default value of the [suffix] parameter. *)
Definition default_suffix : string := "B".

(** ** [progress_hook] *)

(** The [total], [downloaded] and [size_str] locals of the
    ['downloading'] branch. *)
Definition total_of (d : gmap string pyval) : pyval :=
  py_or (dict_get d "total_bytes") (dict_get d "total_bytes_estimated").

Definition downloaded_of (d : gmap string pyval) : pyval :=
  py_or (dict_get d "downloaded_bytes") (PyInt 0).

Definition size_str (d : gmap string pyval) : result string :=
  let total := total_of d in
  let downloaded := downloaded_of d in
  if py_truthy total then
    a ← sizeof_fmt downloaded default_suffix;
    b ← sizeof_fmt total default_suffix;
    Ok (a ++ " / " ++ b)
  else
    sizeof_fmt downloaded default_suffix.

(** The status line without its leading carriage return. *)
Definition status_line (percent size speed eta : string) : string :=
  percent ++ "  " ++ size ++ "  " ++ speed ++ "  ETA " ++ eta.

Definition progress_hook (d : gmap string pyval) : io unit :=
  status ← lift (dict_index d "status");
  if py_eq_str status "downloading" then
    let percent := dict_get_default d "_percent_str" (PyStr "?%") in
    let speed := dict_get_default d "_speed_str" (PyStr "? B/s") in
    let eta := dict_get_default d "_eta_str" (PyStr "?s") in
    size ← lift (size_str d);
    percent' ← lift (py_str percent);
    speed' ← lift (py_str speed);
    eta' ← lift (py_str eta);
    let msg := CR ++ status_line percent' size speed' eta' in
    print msg ""
  else
    status' ← lift (dict_index d "status");
    if py_eq_str status' "finished" then
      print (LF ++ "Download complete, now post-processing...") LF
    else
      mret tt.

(** ** [main]: arguments *)

(** What the command line supplies for each argument the script
    declares, before argparse applies defaults and checks.  The option
    [-h/--help], which argparse adds of its own, is not one of them: a
    command line is one that does not ask for help. *)
Record cmdline := Cmdline {
  cl_url : option string;
  cl_format : option string;
  cl_output : option string;
  cl_list_formats : bool;
  cl_no_playlist : bool
}.

(** The namespace returned by [parser.parse_args()]. *)
Record args := Args {
  args_url : string;
  args_format : string;
  args_output : string;
  args_list_formats : bool;
  args_no_playlist : bool
}.

(** The [choices] of [-f/--format]. *)
Definition format_choices : list string :=
  ["best"; "bestvideo"; "bestaudio"; "720"; "1080"; "audio"].

Definition default_format : string := "best".
Definition default_output : string := "%(title)s [%(id)s].%(ext)s".

Definition in_choices (v : string) (choices : list string) : bool :=
  existsb (String.eqb v) choices.

(** [parser.parse_args()]: [None] when argparse rejects the command line
    (a missing URL, or a [-f] value outside [choices]); it then reports
    the error on standard error and exits with status 2.  The default of
    an option is not checked against [choices]. *)
Definition parse_args (cl : cmdline) : option args :=
  match cl_url cl with
  | None => None
  | Some url =>
      let output := default default_output (cl_output cl) in
      match cl_format cl with
      | None =>
          Some (Args url default_format output (cl_list_formats cl) (cl_no_playlist cl))
      | Some v =>
          if in_choices v format_choices
          then Some (Args url v output (cl_list_formats cl) (cl_no_playlist cl))
          else None
      end
  end.

(** ** [main]: engine options *)

Inductive hook := ProgressHook.

(** Values of the [ydl_opts] dictionary. *)
Inductive optval :=
  | OStr (s : string)
  | OBool (b : bool)
  | OInt (n : Z)
  | OHooks (hooks : list hook)
  | ODicts (ds : list (gmap string string)).

Definition initial_opts (a : args) : gmap string optval :=
  <["progress_hooks" := OHooks [ProgressHook]]>
  (<["noplaylist" := OBool (args_no_playlist a)]>
  (<["fragment_retries" := OInt 10]>
  (<["retries" := OInt 10]>
  (<["continuedl" := OBool true]>
  (<["no_warnings" := OBool true]>
  (<["quiet" := OBool false]>
  (<["outtmpl" := OStr (args_output a)]> ∅))))))).

Definition extract_audio : gmap string string :=
  <["preferredquality" := "192"]>
  (<["preferredcodec" := "m4a"]>
  (<["key" := "FFmpegExtractAudio"]> ∅)).

(** The [if]/[elif] chain under "Format selection"; it has no [else]. *)
Definition select_format (fmt : string) (ydl_opts : gmap string optval)
  : gmap string optval :=
  if String.eqb fmt "best" then
    <["format" := OStr "bestvideo+bestaudio/best"]> ydl_opts
  else if String.eqb fmt "bestvideo" then
    <["format" := OStr "bestvideo"]> ydl_opts
  else if String.eqb fmt "bestaudio" then
    <["format" := OStr "bestaudio/best"]> ydl_opts
  else if String.eqb fmt "audio" then
    <["postprocessors" := ODicts [extract_audio]]>
    (<["format" := OStr "bestaudio/best"]> ydl_opts)
  else if String.eqb fmt "720" then
    <["format" := OStr "bestvideo[height<=720]+bestaudio/best[height<=720]"]> ydl_opts
  else if String.eqb fmt "1080" then
    <["format" := OStr "bestvideo[height<=1080]+bestaudio/best[height<=1080]"]> ydl_opts
  else ydl_opts.

Definition select_listing (list_formats : bool) (ydl_opts : gmap string optval)
  : gmap string optval :=
  if list_formats then
    <["simulate" := OBool true]>
    (<["quiet" := OBool true]>
    (<["listformats" := OBool true]> ydl_opts))
  else ydl_opts.

(** [ydl_opts] as handed to [YoutubeDL]. *)
Definition engine_options (a : args) : gmap string optval :=
  select_listing (args_list_formats a)
    (select_format (args_format a) (initial_opts a)).

(** ** [main]: the run *)

(** The metadata record [extract_info] returns, as far as [main] reads
    it: the entries ['title'] and ['duration'], each absent or holding a
    value, and for a playlist the list under ['entries']. *)
#[warnings="-register-all"]
Inductive info :=
  | Info (title : option pyval) (duration : option pyval) (entries : option (list info)).

Definition info_title (i : info) : option pyval :=
  let 'Info t _ _ := i in t.
Definition info_duration (i : info) : option pyval :=
  let 'Info _ d _ := i in d.
Definition info_entries (i : info) : option (list info) :=
  let 'Info _ _ e := i in e.

(** The engine: [YoutubeDL(ydl_opts)] and its [extract_info]; each
    yields what was written to standard output meanwhile (the engine's
    own messages and those of the progress hook) and what it returns or
    raises. *)
Record engine := Engine {
  YoutubeDL : gmap string optval -> string * result unit;
  extract_info : gmap string optval -> string -> bool -> string * result info
}.

(** A call into the engine from [main]. *)
Definition call {A} (c : string * result A) : io A :=
  fun out => (snd c, out ++ fst c).

(** [dur_str], from the two [divmod] to the second f-string. *)
Definition duration_str (duration : pyval) : result string :=
  '(mins, secs) ← divmod_60 duration;
  '(hrs, mins) ← divmod_60 mins;
  dur_str ← (if py_truthy hrs
             then h ← py_format_d_zero 2 hrs; Ok (h ++ ":")
             else Ok "");
  m ← py_format_d_zero 2 mins;
  s ← py_format_d_zero 2 secs;
  Ok (dur_str ++ m ++ ":" ++ s).

(** What follows [extract_info] inside the [with] block when formats are
    not being listed. *)
Definition print_summary (i : info) : io unit :=
  match info_entries i with
  | Some entries =>
      title ← lift (py_str (default (PyStr "Unknown") (info_title i)));
      print (LF ++ "Playlist: " ++ title) LF;;
      found ← lift (py_str (PyInt (Z.of_nat (length entries))));
      print ("Found " ++ found ++ " videos" ++ LF) LF
  | None =>
      let title := default (PyStr "Unknown title") (info_title i) in
      let duration := default (PyInt 0) (info_duration i) in
      title' ← lift (py_str title);
      print (LF ++ "Title: " ++ title') LF;;
      if py_truthy duration then
        dur_str ← lift (duration_str duration);
        print ("Duration: " ++ dur_str) LF
      else mret tt
  end.

(** The body of the [try] statement. *)
Definition main_try (e : engine) (a : args) (ydl_opts : gmap string optval)
  : io unit :=
  call (YoutubeDL e ydl_opts);;
  print (LF ++ "Fetching info... " ++ args_url a) LF;;
  i ← call (extract_info e ydl_opts (args_url a) (negb (args_list_formats a)));
  if args_list_formats a then mret tt
  else print_summary i.

(** How [main] ends: it returns, it calls [sys.exit], or an exception
    leaves it. *)
Inductive ending :=
  | Returns
  | Exits (code : Z)
  | Propagates (e : pyexc).

(** The two [except] clauses, in order. *)
Definition main_except (e : pyexc) : io ending :=
  match exc_base_of e with
  | FromDownloadError =>
      print (LF ++ "Download failed: " ++ exc_str e) LF;;
      mret (Exits 1)
  | FromException =>
      print (LF ++ "Unexpected error: " ++ exc_name e ++ ": " ++ exc_str e) LF;;
      mret (Exits 1)
  | FromBaseException =>
      mret (Propagates e)
  end.

(** [main()]: how it ends and what it wrote to standard output. *)
Definition main (e : engine) (cl : cmdline) : ending * string :=
  match parse_args cl with
  | None => (Exits 2, "")
  | Some a =>
      let ydl_opts := engine_options a in
      match main_try e a ydl_opts "" with
      | (Ok _, out) => (Returns, out)
      | (Raise exc, out) =>
          match main_except exc out with
          | (Ok r, out') => (r, out')
          | (Raise exc', out') => (Propagates exc', out')
          end
      end
  end.

(** ** Vocabulary of the specification

    The notions the specification uses to describe the code above: they
    follow its wording, not the program text. *)

(** "the unit list", with the terminal unit at its end *)
Definition unit_names : list string := units ++ ["Yi"].

(** "repeatedly divide by 1024": [k] divisions *)
Fixpoint divide_1024 (k : nat) (num : pyval) : result pyval :=
  match k with
  | O => Ok num
  | S k' => num' ← py_truediv_float num float_1024; divide_1024 k' num'
  end.

(** "its absolute value is >= 1024" *)
Definition magnitude_ge_1024 (v : pyval) : result bool :=
  a ← py_abs v; py_ge_float a float_1024.

(** "the magnitude drops below 1024" *)
Definition magnitude_lt_1024 (v : pyval) : result bool :=
  a ← py_abs v; py_lt_float a float_1024.

(** "format with one decimal place" *)
Definition one_decimal (v : pyval) : result string := py_format_f 0 1 v.

(** The numbers [sizeof_fmt] scales as the specification says: floats
    other than NaN, and integers that convert to a float. *)
Definition representable (num : pyval) : Prop :=
  match num with
  | PyInt n => Z.abs n < int_float_limit
  | PyFloat x => x <> S754_nan
  | _ => False
  end.

(** A number [sizeof_fmt] renders without raising: any float, and an
    integer that converts to a float. *)
Definition formattable (num : pyval) : Prop :=
  match num with
  | PyInt n => Z.abs n < int_float_limit
  | PyFloat _ => True
  | _ => False
  end.

(** A count the event reports: present and neither [None] nor zero (nor
    an empty string). *)
Definition reported (o : option pyval) : option pyval :=
  match o with
  | Some (PyInt n) => if n =? 0 then None else Some (PyInt n)
  | Some (PyFloat x) => if float_is_zero x then None else Some (PyFloat x)
  | Some (PyStr s) => if String.eqb s "" then None else Some (PyStr s)
  | Some PyNone | None => None
  end.



(** An entry an f-string can substitute: absent (a default text is
    used), or anything but an integer of more than 4300 digits. *)
Definition substitutable (o : option pyval) : Prop :=
  match o with
  | Some (PyInt n) => Z.abs n < int_str_limit
  | _ => True
  end.


(** The key under which the engine reports its estimate of the total
    (yt-dlp's progress hooks: [total_bytes_estimate]). *)
Definition estimate_key : string := "total_bytes_estimate".

(** "total bytes is known (either exact or an estimate)", for non-zero
    totals: the exact total when the event reports one, else the
    estimate when the event reports one. *)
Definition known_total (d : gmap string pyval) : option pyval :=
  match reported (d !! "total_bytes") with
  | Some t => Some t
  | None => reported (d !! estimate_key)
  end.

(** "the downloaded bytes": the count the event reports, 0 when it
    reports none. *)
Definition downloaded_count (d : gmap string pyval) : pyval :=
  default (PyInt 0) (reported (d !! "downloaded_bytes")).

(** "downloaded / total", both sides scaled by [sizeof_fmt] *)
Definition downloaded_slash_total (downloaded total : pyval) : result string :=
  a ← sizeof_fmt downloaded default_suffix;
  b ← sizeof_fmt total default_suffix;
  Ok (a ++ " / " ++ b).

(** The selector of a height cap: best video no taller than [cap] with
    best audio, else the best combined stream no taller than [cap]. *)
Definition height_capped_selector (cap : string) : string :=
  "bestvideo[height<=" ++ cap ++ "]+bestaudio/best[height<=" ++ cap ++ "]".

(** [a] with another [-f] choice. *)
Definition with_format (fmt : string) (a : args) : args :=
  Args (args_url a) fmt (args_output a) (args_list_formats a) (args_no_playlist a).

(** The event of the specification's progress-line example. *)
Definition example_event : gmap string pyval :=
  <["_eta_str" := PyStr "10s"]>
  (<["_speed_str" := PyStr "1.2MiB/s"]>
  (<["_percent_str" := PyStr "50.0%"]>
  (<["total_bytes" := PyInt 1000]>
  (<["downloaded_bytes" := PyInt 500]>
  (<["status" := PyStr "downloading"]> ∅))))).

(** The texts of the status line: what the f-string substitutes for
    [{percent}], [{speed}] and [{eta}]. *)
Definition percent_text (d : gmap string pyval) : result string :=
  py_str (dict_get_default d "_percent_str" (PyStr "?%")).
Definition rate_text (d : gmap string pyval) : result string :=
  py_str (dict_get_default d "_speed_str" (PyStr "? B/s")).
Definition eta_text (d : gmap string pyval) : result string :=
  py_str (dict_get_default d "_eta_str" (PyStr "?s")).

(** Events used as examples. *)
Definition overshoot_event : gmap string pyval :=
  <["total_bytes" := PyInt 1000]>
  (<["downloaded_bytes" := PyInt 1500]>
  (<["status" := PyStr "downloading"]> ∅)).

Definition no_total_event : gmap string pyval :=
  <["downloaded_bytes" := PyInt 2048]>
  (<["status" := PyStr "downloading"]> ∅).

Definition zero_total_event : gmap string pyval :=
  <["total_bytes" := PyInt 0]> no_total_event.

Definition huge_event : gmap string pyval :=
  <["downloaded_bytes" := PyInt (2 ^ 1024)]>
  (<["status" := PyStr "downloading"]> ∅).

Definition merging_event : gmap string pyval :=
  <["status" := PyStr "merging"]> ∅.

(** Engines used as examples: one whose download fails, one that fails
    in another way. *)
Definition failing_engine (exc : pyexc) : engine :=
  Engine (fun _ => ("", Ok tt)) (fun _ _ _ => ("", Raise exc)).

Definition http_403 : pyexc :=
  PyExc FromDownloadError "DownloadError" "ERROR: HTTP Error 403: Forbidden".

Definition bad_template : pyexc :=
  ValueError "unsupported format character".

Definition status_only_event : gmap string pyval :=
  <["status" := PyStr "downloading"]> ∅.

(** A command line asking for a quality that is not offered. *)
Definition cmdline_4k : cmdline :=
  Cmdline (Some "https://youtu.be/dQw4w9WgXcQ") (Some "4k") None false false.

Definition cmdline_1080 : cmdline :=
  Cmdline (Some "https://youtu.be/dQw4w9WgXcQ") (Some "1080") None false false.

Definition args_1080 : args :=
  Args "https://youtu.be/dQw4w9WgXcQ" "1080" default_output false false.

(** ** Further vocabulary *)

(** The tenths of [n / 1024^k], rounded to the nearest, ties to even:
    what a one-decimal rendering of the exact quotient shows. *)
Definition exact_tenths (n : Z) (k : nat) : Z :=
  div_half_even (10 * n) (1024 ^ Z.of_nat k).

(** The entries of an event that [progress_hook] reads. *)
Definition hook_keys : list string :=
  ["status"; "_percent_str"; "_speed_str"; "_eta_str";
   "total_bytes"; "total_bytes_estimated"; "downloaded_bytes"].

(** An engine that answers with the record [i]. *)
Definition answering_engine (i : info) : engine :=
  Engine (fun _ => ("", Ok tt)) (fun _ _ _ => ("", Ok i)).

Definition cmdline_listing : cmdline :=
  Cmdline (Some "https://youtu.be/dQw4w9WgXcQ") None None true false.

Definition args_listing : args :=
  Args "https://youtu.be/dQw4w9WgXcQ" default_format default_output true false.

Definition some_video : info :=
  Info (Some (PyStr "Never Gonna Give You Up")) (Some (PyInt 213)) None.

Definition cmdline_plain : cmdline :=
  Cmdline (Some "https://youtu.be/dQw4w9WgXcQ") None None false false.

Definition args_plain : args :=
  Args "https://youtu.be/dQw4w9WgXcQ" default_format default_output false false.

(** An event whose ETA entry is an integer of 4301 digits, and one that
    carries the engine's estimate of the total. *)
Definition long_eta_event : gmap string pyval :=
  <["_eta_str" := PyInt (10 ^ 4300)]> status_only_event.

Definition estimate_event : gmap string pyval :=
  <[estimate_key := PyInt 4096]> no_total_event.

(** A number on at least two digits: a leading zero for 0 to 9. *)
Definition clock_field (n : Z) : string :=
  if (0 <=? n) && (n <? 10) then "0" ++ pretty n else pretty n.

(** The clock reading of [duration] seconds: hours (left out when zero),
    minutes and seconds. *)
Definition clock (duration : Z) : string :=
  let h := duration / 3600 in
  let m := duration mod 3600 / 60 in
  let s := duration mod 60 in
  (if h =? 0 then "" else clock_field h ++ ":")
  ++ clock_field m ++ ":" ++ clock_field s.

(** A duration [main] can show: one the record does not report (absent,
    [None] or zero: no line is printed), or an integer whose hours have
    at most 4300 digits. *)
Definition duration_renders (o : option pyval) : Prop :=
  match reported o with
  | None => True
  | Some (PyInt n) => Z.abs (n / 3600) < int_str_limit
  | Some _ => False
  end.

(** A record whose summary [main] can print. *)
Definition summary_renders (i : info) : Prop :=
  substitutable (info_title i)
  /\ match info_entries i with
     | Some entries => Z.of_nat (length entries) < int_str_limit
     | None => duration_renders (info_duration i)
     end.

(** The summary [main] prints for a record. *)
Definition summary_text (i : info) : string :=
  match info_entries i with
  | Some entries =>
      LF ++ "Playlist: " ++ str_text (default (PyStr "Unknown") (info_title i)) ++ LF
      ++ "Found " ++ pretty (Z.of_nat (length entries)) ++ " videos" ++ LF ++ LF
  | None =>
      LF ++ "Title: " ++ str_text (default (PyStr "Unknown title") (info_title i)) ++ LF
      ++ match reported (info_duration i) with
         | Some (PyInt n) => "Duration: " ++ clock n ++ LF
         | _ => ""
         end
  end.

(** A video of three minutes and a half, its duration a float. *)
Definition float_video : info :=
  Info (Some (PyStr "Never Gonna Give You Up"))
       (Some (PyFloat (decimal_to_float 2135 (-1)))) None.

(** * Properties *)

(** ** The model of Python's numbers on known values *)

(** The limit of [float_of_int] is where rounding to the nearest double
    first overflows. *)
Example float_of_int_limit :
  binary_normalize prec emax (int_float_limit - 1) 0 false
  = S754_finite false 9007199254740991 971
  /\ binary_normalize prec emax int_float_limit 0 false = S754_infinity false
  /\ float_of_int int_float_limit = Raise OverflowError.
Proof. repeat split; vm_compute; reflexivity. Qed.

(** [f"{x:.1f}"] rounds the exact binary value, ties to even: 0.25,
    0.75, 1023.95, -0.04. *)
Example format_float_f_rounding :
  format_float_f 1 (decimal_to_float 25 (-2)) = "0.2"
  /\ format_float_f 1 (decimal_to_float 75 (-2)) = "0.8"
  /\ format_float_f 1 (decimal_to_float 102395 (-2)) = "1024.0"
  /\ format_float_f 1 (SFopp (decimal_to_float 4 (-2))) = "-0.0".
Proof. repeat split; vm_compute; reflexivity. Qed.

(** [str] of 0.1, 1e16, 1/3 and of an integer; an integer of 4301
    digits, the sign not counted, has no text. *)
Example py_str_values :
  py_str (PyFloat (decimal_to_float 1 (-1))) = Ok "0.1"
  /\ py_str (PyFloat (decimal_to_float 1 16)) = Ok "1e+16"
  /\ py_str (PyFloat (SFdiv prec emax (decimal_to_float 1 0) (decimal_to_float 3 0)))
     = Ok "0.3333333333333333"
  /\ py_str (PyInt (-12)) = Ok "-12"
  /\ py_str PyNone = Ok "None".
Proof. repeat split; vm_compute; reflexivity. Qed.

Lemma int_str_limit_pos : 0 < int_str_limit.
Proof. apply Z.pow_pos_nonneg; [reflexivity | discriminate]. Qed.

Lemma int_str_limit_large : 60 <= int_str_limit.
Proof.
  transitivity (10 ^ 2); [discriminate |].
  apply Z.pow_le_mono_r; [reflexivity | discriminate].
Qed.

Lemma py_str_long n : int_str_limit <= Z.abs n -> py_str (PyInt n) = Raise int_str_error.
Proof.
  intros H. unfold py_str.
  destruct (Z.leb_spec int_str_limit (Z.abs n)); [reflexivity | lia].
Qed.

Example py_str_limit :
  py_str (PyInt (10 ^ 4300)) = Raise int_str_error.
Proof.
  apply py_str_long. change (10 ^ 4300) with int_str_limit.
  pose proof int_str_limit_pos. lia.
Qed.

Example py_str_limit_negative :
  py_str (PyInt (- 10 ^ 4300)) = Raise int_str_error.
Proof.
  apply py_str_long. change (10 ^ 4300) with int_str_limit.
  pose proof int_str_limit_pos. lia.
Qed.

(** [f"{n:02d}"] of 5, 123, -1 and of 213.5. *)
Example py_format_d_zero_values :
  py_format_d_zero 2 (PyInt 5) = Ok "05"
  /\ py_format_d_zero 2 (PyInt 123) = Ok "123"
  /\ py_format_d_zero 2 (PyInt (-1)) = Ok "-1"
  /\ py_format_d_zero 2 (PyFloat (decimal_to_float 2135 (-1)))
     = Raise (ValueError "Unknown format code 'd' for object of type 'float'").
Proof. repeat split; vm_compute; reflexivity. Qed.

(** [divmod(213.5, 60)] is (3.0, 33.5), [divmod(-7.5, 60)] is
    (-1.0, 52.5), [divmod(-1, 60)] is (-1, 59), and the division of an
    infinity gives two NaN. *)
Example divmod_60_values :
  float_divmod_60 (decimal_to_float 2135 (-1))
  = (decimal_to_float 3 0, decimal_to_float 335 (-1))
  /\ float_divmod_60 (SFopp (decimal_to_float 75 (-1)))
     = (SFopp (decimal_to_float 1 0), decimal_to_float 525 (-1))
  /\ divmod_60 (PyInt (-1)) = Ok (PyInt (-1), PyInt 59)
  /\ float_divmod_60 (S754_infinity false) = (S754_nan, S754_nan).
Proof. repeat split; vm_compute; reflexivity. Qed.

Example duration_str_values :
  duration_str (PyInt 3725) = Ok "01:02:05"
  /\ duration_str (PyInt 59) = Ok "00:59"
  /\ duration_str (PyInt (-1)) = Ok "-1:59:59"
  /\ duration_str (PyFloat (decimal_to_float 2135 (-1)))
     = Raise (ValueError "Unknown format code 'd' for object of type 'float'")
  /\ duration_str (PyStr "3:33")
     = Raise (TypeError "unsupported operand type(s) for divmod(): 'str' and 'int'").
Proof. repeat split; vm_compute; reflexivity. Qed.

(** ** The float model never produces a NaN out of rounding *)

Section Rounding.
Variables p_ e_ : Z.

Lemma iter_pos_invariant {A} (P : A -> Prop) (f : A -> A) :
  (forall a, P a -> P (f a)) ->
  forall n a, P a -> P (SpecFloat.iter_pos f n a).
Proof.
  intros Hf. induction n as [n IH | n IH |]; simpl; intros a Ha; auto.
Qed.

Lemma shr_1_nonneg mrs : 0 <= shr_m mrs -> 0 <= shr_m (shr_1 mrs).
Proof.
  destruct mrs as [m r s]. simpl.
  destruct m as [| q | q]; [ | destruct q .. ]; simpl; lia.
Qed.

Lemma shr_nonneg mrs e n : 0 <= shr_m mrs -> 0 <= shr_m (fst (shr mrs e n)).
Proof.
  intros H. destruct n; simpl; auto.
  apply iter_pos_invariant; auto using shr_1_nonneg.
Qed.

Lemma shr_record_of_loc_m m l : shr_m (shr_record_of_loc m l) = m.
Proof. destruct l as [| []]; reflexivity. Qed.

Lemma shr_fexp_nonneg m e l :
  0 <= m -> 0 <= shr_m (fst (shr_fexp p_ e_ m e l)).
Proof.
  intros H. unfold shr_fexp. apply shr_nonneg.
  now rewrite shr_record_of_loc_m.
Qed.

Lemma round_nearest_even_nonneg m l : 0 <= m -> 0 <= round_nearest_even m l.
Proof.
  intros H. destruct l as [| []]; simpl; try lia.
  destruct (Z.even m); lia.
Qed.

Lemma binary_round_aux_not_nan sx mx ex lx :
  0 <= mx -> binary_round_aux p_ e_ sx mx ex lx <> S754_nan.
Proof.
  intros H. unfold binary_round_aux.
  pose proof (shr_fexp_nonneg mx ex lx H) as H1.
  destruct (shr_fexp p_ e_ mx ex lx) as [mrs' e'] eqn:E1. simpl in H1.
  pose proof (shr_fexp_nonneg _ e' loc_Exact
                (round_nearest_even_nonneg _ (loc_of_shr_record mrs') H1)) as H2.
  destruct (shr_fexp p_ e_ _ e' loc_Exact) as [mrs'' e''] eqn:E2. simpl in H2.
  destruct (shr_m mrs''); [discriminate | | lia].
  destruct (e'' <=? e_ - p_); discriminate.
Qed.

Lemma binary_normalize_not_nan m e s : binary_normalize p_ e_ m e s <> S754_nan.
Proof.
  destruct m as [| q | q]; simpl; [discriminate | |];
    unfold binary_round;
    destruct (shl_align _ _ _) as [mz ez];
    apply binary_round_aux_not_nan; lia.
Qed.

Lemma SFdiv_finite_not_nan x sy my ey :
  x <> S754_nan -> SFdiv p_ e_ x (S754_finite sy my ey) <> S754_nan.
Proof.
  intros Hx. destruct x as [s | s | | s m e]; simpl; try discriminate; [congruence |].
  destruct (SFdiv_core_binary p_ e_ (Z.pos m) e (Z.pos my) ey) as [[mz ez] lz] eqn:E.
  apply binary_round_aux_not_nan.
  unfold SFdiv_core_binary in E.
  set (m' := match _ - _ - _ with Z0 => _ | Zpos _ => _ | Zneg _ => _ end) in E.
  assert (0 <= m') as Hm'.
  { subst m'. destruct (_ - _ - _); try lia. apply Z.shiftl_nonneg. lia. }
  pose proof (Z.div_pos m' (Z.pos my) Hm' ltac:(lia)) as Hq.
  unfold Z.div in Hq. destruct (Z.div_eucl m' (Z.pos my)) as [q r].
  simpl in Hq. injection E as <- _ _. exact Hq.
Qed.
End Rounding.

(** ** Strings and rendered numbers *)

Lemma length_append s t :
  String.length (s ++ t) = (String.length s + String.length t)%nat.
Proof. induction s as [| c s IH]; simpl; [reflexivity | now rewrite IH]. Qed.

Lemma pad_left_length c w s : (String.length s <= String.length (pad_left c w s))%nat.
Proof. unfold pad_left. rewrite length_append. lia. Qed.

Lemma pad_left_wide c w s : (w <= String.length s)%nat -> pad_left c w s = s.
Proof.
  intros H. unfold pad_left.
  replace (w - String.length s)%nat with 0%nat by lia. reflexivity.
Qed.

Lemma pretty_N_go_length x s :
  (String.length s <= String.length (pretty_N_go x s))%nat.
Proof.
  revert s. induction (N.lt_wf_0 x) as [x _ IH]. intros s.
  destruct (N.eq_dec x 0%N) as [-> | Hx].
  - rewrite pretty_N_go_0. lia.
  - rewrite pretty_N_go_step by lia.
    etransitivity; [| apply IH; apply N.div_lt; lia]. simpl. lia.
Qed.

Lemma pretty_N_length (x : N) : (1 <= String.length (pretty x))%nat.
Proof.
  unfold pretty, pretty_N. destruct (decide (x = 0%N)) as [-> | Hx]; [simpl; lia |].
  rewrite pretty_N_go_step by lia.
  etransitivity; [| apply pretty_N_go_length]. simpl. lia.
Qed.

Lemma pretty_Z_length (z : Z) : (1 <= String.length (pretty z))%nat.
Proof.
  destruct z as [| q | q]; unfold pretty, pretty_Z; [simpl; lia | apply pretty_N_length |].
  change ("-" +:+ pretty q) with (String "-" (pretty q)). simpl.
  pose proof (pretty_N_length (N.pos q)). unfold pretty at 1, pretty_positive. lia.
Qed.

Lemma fixed_digits_1_length n : (3 <= String.length (fixed_digits n 1))%nat.
Proof.
  unfold fixed_digits. rewrite !length_append.
  generalize (pretty_Z_length (n / 10 ^ Z.of_nat 1)).
  generalize (pad_left_length "0" 1 (pretty (n mod 10 ^ Z.of_nat 1))).
  generalize (pretty_Z_length (n mod 10 ^ Z.of_nat 1)).
  change (String.length ".") with 1%nat.
  generalize (String.length (pad_left "0" 1 (pretty (n mod 10 ^ Z.of_nat 1)))).
  generalize (String.length (pretty (n mod 10 ^ Z.of_nat 1))).
  generalize (String.length (pretty (n / 10 ^ Z.of_nat 1))).
  intros; lia.
Qed.

Lemma format_float_f_1_length x : (3 <= String.length (format_float_f 1 x))%nat.
Proof.
  destruct x as [s | s | | s m e]; unfold format_float_f; rewrite ?length_append;
    try match goal with |- context [fixed_digits ?n 1] =>
          generalize (fixed_digits_1_length n);
          generalize (String.length (fixed_digits n 1))
        end;
    simpl; intros; lia.
Qed.

(** A field width of 3 never pads a number rendered with one decimal. *)
Lemma py_format_f_width v : py_format_f 3 1 v = one_decimal v.
Proof.
  unfold one_decimal.
  destruct v as [| n | x | s]; simpl; try reflexivity.
  - destruct (float_of_int n) as [x | e]; simpl; [| reflexivity].
    rewrite !pad_left_wide; auto using format_float_f_1_length. lia.
  - rewrite !pad_left_wide; auto using format_float_f_1_length. lia.
Qed.

(** ** [sizeof_fmt] *)

Ltac simpl_result :=
  cbn [mbind mret result_bind result_ret io_bind io_ret lift] in *.

Lemma float_1024_value : float_1024 = binary_normalize prec emax 1024 0 false.
Proof. reflexivity. Qed.

Lemma float_of_int_ok n :
  Z.abs n < int_float_limit ->
  exists x, float_of_int n = Ok x /\ x <> S754_nan.
Proof.
  intros H. unfold float_of_int.
  destruct (int_float_limit <=? Z.abs n) eqn:E; [apply Z.leb_le in E; lia |].
  eexists; split; [reflexivity | apply binary_normalize_not_nan].
Qed.

(** A division by 1024.0 leaves the numbers the formatter is specified
    on, and always yields a float. *)
Lemma divide_representable num :
  representable num ->
  exists x, py_truediv_float num float_1024 = Ok (PyFloat x) /\ x <> S754_nan.
Proof.
  destruct num as [| n | x | s]; simpl; try tauto; intros H.
  - destruct (float_of_int_ok n H) as (x & -> & Hx). simpl_result.
    unfold float_div. simpl. eexists; split; [reflexivity |].
    now apply SFdiv_finite_not_nan.
  - unfold float_div. simpl. eexists; split; [reflexivity |].
    now apply SFdiv_finite_not_nan.
Qed.

Lemma one_decimal_representable num :
  representable num -> exists s, one_decimal num = Ok s.
Proof.
  destruct num as [| n | x | s]; simpl; try tauto; intros H; unfold one_decimal; simpl.
  - destruct (float_of_int_ok n H) as (x & -> & _). simpl_result. eauto.
  - eauto.
Qed.

(** Below 1024, or else at least 1024: a NaN is neither. *)
Lemma magnitude_dichotomy num :
  representable num ->
  magnitude_lt_1024 num = Ok true
  \/ (magnitude_lt_1024 num = Ok false /\ magnitude_ge_1024 num = Ok true).
Proof.
  unfold magnitude_lt_1024, magnitude_ge_1024.
  destruct num as [| n | x | s]; unfold representable; try tauto; intros H;
    unfold py_abs; simpl_result;
    unfold py_lt_float, py_ge_float, py_compare_float.
  - unfold int_float_compare, float_1024.
    destruct (0 <=? -42); destruct (_ ?= _); auto.
  - destruct x as [sx | sx | | sx m e]; [| | congruence |];
      unfold SFabs, SFcompare, float_1024; auto.
    destruct (e ?= -42); auto.
    destruct (Pos.compare_cont Eq m 4503599627370496); auto.
Qed.

Lemma sizeof_fmt_loop_cons unit_ us num suffix :
  sizeof_fmt_loop (unit_ :: us) num suffix =
  (below ← magnitude_lt_1024 num;
   if below : bool then s ← py_format_f 3 1 num; Ok (s ++ unit_ ++ suffix)
   else num' ← py_truediv_float num float_1024; sizeof_fmt_loop us num' suffix).
Proof.
  unfold magnitude_lt_1024. simpl. destruct (py_abs num); reflexivity.
Qed.

(** The loop over any list of units: [k] divisions, each taken at a
    magnitude of at least 1024, stopping at the first magnitude below
    1024 or at the end of the list. *)
Lemma sizeof_fmt_loop_scales us : forall num suffix,
  representable num ->
  exists (k : nat) (x : pyval) (s : string),
    (k <= length us)%nat
    /\ divide_1024 k num = Ok x
    /\ (forall j, (j < k)%nat ->
          exists y, divide_1024 j num = Ok y /\ magnitude_ge_1024 y = Ok true)
    /\ ((k < length us)%nat -> magnitude_lt_1024 x = Ok true)
    /\ one_decimal x = Ok s
    /\ sizeof_fmt_loop us num suffix = Ok (s ++ nth k (us ++ ["Yi"]) "" ++ suffix).
Proof.
  induction us as [| unit_ us IH]; intros num suffix Hnum.
  - destruct (one_decimal_representable num Hnum) as [s Hs].
    exists 0%nat, num, s. repeat split; auto.
    + intros j Hj. lia.
    + simpl. lia.
    + simpl. unfold one_decimal in Hs. rewrite Hs. reflexivity.
  - rewrite sizeof_fmt_loop_cons.
    destruct (magnitude_dichotomy num Hnum) as [Hlt | [Hlt Hge]]; rewrite Hlt; simpl_result.
    + destruct (one_decimal_representable num Hnum) as [s Hs].
      exists 0%nat, num, s. repeat split; auto.
      * simpl. lia.
      * intros j Hj. lia.
      * rewrite py_format_f_width, Hs. reflexivity.
    + destruct (divide_representable num Hnum) as (x' & Hdiv & Hx').
      destruct (IH (PyFloat x') suffix Hx') as (k & x & s & Hk & Hd & Hall & Hstop & Hs & Hloop).
      exists (S k), x, s. repeat split; auto.
      * simpl. lia.
      * simpl. rewrite Hdiv. exact Hd.
      * intros [| j] Hj.
        -- exists num. split; [reflexivity | exact Hge].
        -- destruct (Hall j ltac:(lia)) as (y & Hy & Hyge).
           exists y. split; [| exact Hyge]. simpl. rewrite Hdiv. exact Hy.
      * intros Hlen. apply Hstop. simpl in Hlen. lia.
      * rewrite Hdiv. simpl_result. exact Hloop.
Qed.

Lemma one_decimal_formattable width num :
  formattable num -> exists s, py_format_f width 1 num = Ok s.
Proof.
  destruct num as [| n | x | t]; unfold formattable; try tauto; intros Hnum.
  - unfold py_format_f. destruct (float_of_int_ok n Hnum) as (x & -> & _).
    simpl_result. eauto.
  - unfold py_format_f. eauto.
Qed.

Lemma divide_formattable num :
  formattable num -> exists x, py_truediv_float num float_1024 = Ok (PyFloat x).
Proof.
  destruct num as [| n | x | t]; unfold formattable; try tauto; intros Hnum.
  - unfold py_truediv_float. destruct (float_of_int_ok n Hnum) as (x & -> & _).
    simpl_result. unfold float_div. cbn [float_is_zero float_1024]. eauto.
  - unfold py_truediv_float, float_div. cbn [float_is_zero float_1024]. eauto.
Qed.

Lemma magnitude_formattable num :
  formattable num -> exists b, magnitude_lt_1024 num = Ok b.
Proof.
  destruct num as [| n | x | t]; unfold formattable; try tauto; intros _;
    unfold magnitude_lt_1024, py_abs; simpl_result; unfold py_lt_float; eauto.
Qed.

Lemma sizeof_fmt_loop_formattable us : forall num suffix,
  formattable num -> exists s, sizeof_fmt_loop us num suffix = Ok s.
Proof.
  induction us as [| unit_ us IH]; intros num suffix Hnum.
  - cbn [sizeof_fmt_loop].
    destruct (one_decimal_formattable 0 num Hnum) as [s ->]. simpl_result. eauto.
  - rewrite sizeof_fmt_loop_cons.
    destruct (magnitude_formattable num Hnum) as [[|] ->]; simpl_result.
    + destruct (one_decimal_formattable 3 num Hnum) as [s ->]. simpl_result. eauto.
    + destruct (divide_formattable num Hnum) as [x ->]. simpl_result.
      apply IH. exact I.
Qed.


(** C2, as amended.  On every float other than NaN and every integer
    that converts to a float, [sizeof_fmt] divides by 1024 as long as the
    absolute value is at least 1024, at most 8 times, and renders the
    quotient with one decimal place, the unit reached (["Yi"] after 8
    divisions) and the suffix; [sizeof_fmt] of 0, 1023, 1024, 1536 and
    1024^8 are "0.0B", "1023.0B", "1.0KiB", "1.5KiB" and "1.0YiB". *)
Theorem sizeof_fmt_scaling (num : pyval) (Hnum : representable num) :
  (exists (k : nat) (x : pyval) (s : string),
      (k <= 8)%nat
      /\ divide_1024 k num = Ok x
      /\ (forall j, (j < k)%nat ->
            exists y, divide_1024 j num = Ok y /\ magnitude_ge_1024 y = Ok true)
      /\ ((k < 8)%nat -> magnitude_lt_1024 x = Ok true)
      /\ one_decimal x = Ok s
      /\ sizeof_fmt num default_suffix = Ok (s ++ nth k unit_names "" ++ "B"))
  /\ nth 8 unit_names "" = "Yi"
  /\ sizeof_fmt (PyInt 0) default_suffix = Ok "0.0B"
  /\ sizeof_fmt (PyInt 1023) default_suffix = Ok "1023.0B"
  /\ sizeof_fmt (PyInt 1024) default_suffix = Ok "1.0KiB"
  /\ sizeof_fmt (PyInt 1536) default_suffix = Ok "1.5KiB"
  /\ sizeof_fmt (PyInt (1024 ^ 8)) default_suffix = Ok "1.0YiB".
Proof.
  split; [| repeat split; vm_compute; reflexivity].
  exact (sizeof_fmt_loop_scales units num default_suffix Hnum).
Qed.

Lemma sizeof_fmt_scaling_witness :
  representable (PyInt 1536)
  /\ exists (k : nat) (x : pyval) (s : string),
      (k <= 8)%nat
      /\ divide_1024 k (PyInt 1536) = Ok x
      /\ (forall j, (j < k)%nat ->
            exists y, divide_1024 j (PyInt 1536) = Ok y
                      /\ magnitude_ge_1024 y = Ok true)
      /\ ((k < 8)%nat -> magnitude_lt_1024 x = Ok true)
      /\ one_decimal x = Ok s
      /\ sizeof_fmt (PyInt 1536) default_suffix = Ok (s ++ nth k unit_names "" ++ "B").
Proof.
  assert (H : representable (PyInt 1536)) by (vm_compute; reflexivity).
  split; [exact H | exact (proj1 (sizeof_fmt_scaling (PyInt 1536) H))].
Defined.

(** C2 as stated fails: an integer from 2^1024 - 2^970 on does not
    convert to a float, so the first division raises OverflowError
    instead of reaching the "Yi" unit; and a NaN, whose absolute value is
    not at least 1024, is still divided eight times. *)
Lemma sizeof_fmt_scaling_counterexample :
  sizeof_fmt (PyInt (2 ^ 1024)) default_suffix = Raise OverflowError
  /\ magnitude_ge_1024 (PyFloat S754_nan) = Ok false
  /\ sizeof_fmt (PyFloat S754_nan) default_suffix = Ok "nanYiB".
Proof. repeat split; vm_compute; reflexivity. Qed.

(** ** [progress_hook] *)

Lemma append_empty_r s : s ++ "" = s.
Proof.
  induction s as [| c s IH]; [reflexivity |].
  change (String c s ++ "") with (String c (s ++ "")). now rewrite IH.
Qed.

Lemma py_eq_str_false v s : v <> PyStr s -> py_eq_str v s = false.
Proof.
  destruct v as [| n | x | t]; simpl; auto.
  intros H. apply String.eqb_neq. congruence.
Qed.

Lemma py_eq_str_true v s : py_eq_str v s = true -> v = PyStr s.
Proof.
  destruct v as [| n | x | t]; simpl; try discriminate.
  intros H. apply String.eqb_eq in H. now subst.
Qed.


(** What the event reports is what Python's truth test lets through. *)
Lemma reported_truthy o :
  match reported o with
  | Some v => o = Some v /\ py_truthy v = true
  | None => py_truthy (default PyNone o) = false
  end.
Proof.
  destruct o as [[| n | x | s] |]; cbn [reported default from_option id py_truthy]; auto.
  - destruct (n =? 0) eqn:E; cbn [py_truthy]; rewrite ?E; auto.
  - destruct (float_is_zero x) eqn:E; cbn [py_truthy]; rewrite ?E; auto.
  - destruct (String.eqb s "") eqn:E; cbn [py_truthy]; rewrite ?E; auto.
Qed.

(** [d.get(key) or b] is the reported value, else [b]. *)
Lemma py_or_reported (d : gmap string pyval) key b :
  py_or (dict_get d key) b = default b (reported (d !! key)).
Proof.
  unfold py_or. change (dict_get d key) with (default PyNone (d !! key)).
  pose proof (reported_truthy (d !! key)) as H.
  destruct (reported (d !! key)) as [v |].
  - destruct H as [-> Ht]. cbn [default from_option id]. now rewrite Ht.
  - now rewrite H.
Qed.

Lemma downloaded_of_count d : downloaded_of d = downloaded_count d.
Proof. apply py_or_reported. Qed.

Lemma total_of_reported d :
  total_of d = default (dict_get d "total_bytes_estimated") (reported (d !! "total_bytes")).
Proof. apply py_or_reported. Qed.

Lemma size_str_unfold d :
  size_str d =
  if py_truthy (total_of d)
  then downloaded_slash_total (downloaded_of d) (total_of d)
  else sizeof_fmt (downloaded_of d) default_suffix.
Proof. reflexivity. Qed.

(** The size field by what the event reports under the keys the
    callback reads. *)
Lemma size_str_reported d :
  size_str d =
  match reported (d !! "total_bytes") with
  | Some total => downloaded_slash_total (downloaded_count d) total
  | None =>
      match reported (d !! "total_bytes_estimated") with
      | Some total => downloaded_slash_total (downloaded_count d) total
      | None => sizeof_fmt (downloaded_count d) default_suffix
      end
  end.
Proof.
  rewrite size_str_unfold, total_of_reported, downloaded_of_count.
  pose proof (reported_truthy (d !! "total_bytes")) as H1.
  pose proof (reported_truthy (d !! "total_bytes_estimated")) as H2.
  destruct (reported (d !! "total_bytes")) as [t |].
  - destruct H1 as [_ Ht]. cbn [default from_option id]. now rewrite Ht.
  - cbn [default from_option id].
    change (dict_get d "total_bytes_estimated")
      with (default PyNone (d !! "total_bytes_estimated")).
    destruct (reported (d !! "total_bytes_estimated")) as [t |].
    + destruct H2 as [-> Ht]. cbn [default from_option id]. now rewrite Ht.
    + now rewrite H2.
Qed.




(** The ['downloading'] branch: one write, the carriage return and the
    status line, when the size text and the three other texts render;
    the first failure otherwise, and nothing written. *)
Lemma progress_hook_downloading d out :
  d !! "status" = Some (PyStr "downloading") ->
  progress_hook d out =
  match (size ← size_str d;
         percent ← percent_text d;
         rate ← rate_text d;
         eta ← eta_text d;
         Ok (status_line percent size rate eta)) with
  | Ok line => (Ok tt, out ++ CR ++ line)
  | Raise e => (Raise e, out)
  end.
Proof.
  intros H. unfold progress_hook, dict_index. rewrite H.
  change (py_eq_str (PyStr "downloading") "downloading") with true.
  unfold percent_text, rate_text, eta_text.
  cbv [mbind io_bind result_bind lift].
  destruct (size_str d) as [size | e]; [| reflexivity].
  destruct (py_str (dict_get_default d "_percent_str" (PyStr "?%"))); [| reflexivity].
  destruct (py_str (dict_get_default d "_speed_str" (PyStr "? B/s"))); [| reflexivity].
  destruct (py_str (dict_get_default d "_eta_str" (PyStr "?s"))); [| reflexivity].
  unfold print. now rewrite append_empty_r.
Qed.

(** Any other status than ['downloading'] and ['finished']: nothing is
    written. *)
Lemma progress_hook_other d out v :
  d !! "status" = Some v ->
  v <> PyStr "downloading" -> v <> PyStr "finished" ->
  progress_hook d out = (Ok tt, out).
Proof.
  intros H Hd Hf. unfold progress_hook, dict_index. rewrite H.
  cbv [mbind io_bind lift].
  rewrite (py_eq_str_false _ _ Hd), (py_eq_str_false _ _ Hf). reflexivity.
Qed.


(** An ETA entry that is an integer of 4301 digits: the f-string
    raises, after the size text was computed and before anything is
    written. *)
Lemma long_eta_raises :
  progress_hook long_eta_event "" = (Raise int_str_error, "").
Proof.
  assert (Hs : long_eta_event !! "status" = Some (PyStr "downloading"))
    by (vm_compute; reflexivity).
  rewrite (progress_hook_downloading long_eta_event "" Hs).
  assert (E1 : size_str long_eta_event = Ok "0.0B") by (vm_compute; reflexivity).
  assert (E2 : percent_text long_eta_event = Ok "?%") by (vm_compute; reflexivity).
  assert (E3 : rate_text long_eta_event = Ok "? B/s") by (vm_compute; reflexivity).
  assert (E4 : eta_text long_eta_event = Raise int_str_error).
  { unfold eta_text, dict_get_default, long_eta_event.
    rewrite lookup_insert_eq. exact py_str_limit. }
  rewrite E1, E2, E3, E4. reflexivity.
Qed.




(** The overshoot of the specification: downloaded 1500 of 1000 bytes. *)
Example overshoot_rendered :
  progress_hook overshoot_event "" =
  (Ok tt, CR ++ "?%  1.5KiB / 1000.0B  ? B/s  ETA ?s").
Proof. vm_compute. reflexivity. Qed.

(** A ['finished'] event with a count that cannot be rendered, and a
    ['downloading'] event with an exact total and an estimate that
    cannot: neither is formatted, the callback returns. *)
Example unread_counts :
  progress_hook (<["status" := PyStr "finished"]> huge_event) ""
  = (Ok tt, LF ++ "Download complete, now post-processing..." ++ LF)
  /\ progress_hook (<["total_bytes_estimated" := PyStr "unknown"]> overshoot_event) ""
     = (Ok tt, CR ++ "?%  1.5KiB / 1000.0B  ? B/s  ETA ?s").
Proof. split; vm_compute; reflexivity. Qed.

(** C3, as amended.  On a ['downloading'] event whose size text and
    whose percent, rate and ETA texts render, the callback writes, after
    a carriage return and with nothing behind it, the percent text, two
    spaces, the size text, two spaces, the rate text, two spaces, "ETA",
    a space and the ETA text; when one of the texts cannot be rendered,
    its exception leaves the callback and nothing is written.  The
    example event (500 of 1000 bytes, "50.0%", "1.2MiB/s", "10s") gives
    "50.0%  500.0B / 1000.0B  1.2MiB/s  ETA 10s". *)
Theorem status_line_composition (d : gmap string pyval) (out : string)
  (Hstatus : d !! "status" = Some (PyStr "downloading")) :
  progress_hook d out =
    match (size ← size_str d;
           percent ← percent_text d;
           rate ← rate_text d;
           eta ← eta_text d;
           Ok (percent ++ "  " ++ size ++ "  " ++ rate ++ "  ETA " ++ eta)) with
    | Ok line => (Ok tt, out ++ CR ++ line)
    | Raise e => (Raise e, out)
    end
  /\ progress_hook example_event "" =
     (Ok tt, CR ++ "50.0%  500.0B / 1000.0B  1.2MiB/s  ETA 10s").
Proof.
  split; [exact (progress_hook_downloading d out Hstatus) |].
  vm_compute. reflexivity.
Qed.

Lemma status_line_composition_witness :
  example_event !! "status" = Some (PyStr "downloading")
  /\ progress_hook example_event "" =
       match (size ← size_str example_event;
              percent ← percent_text example_event;
              rate ← rate_text example_event;
              eta ← eta_text example_event;
              Ok (percent ++ "  " ++ size ++ "  " ++ rate ++ "  ETA " ++ eta)) with
       | Ok line => (Ok tt, "" ++ CR ++ line)
       | Raise e => (Raise e, "")
       end.
Proof.
  assert (H : example_event !! "status" = Some (PyStr "downloading"))
    by (vm_compute; reflexivity).
  split; [exact H | exact (proj1 (status_line_composition example_event "" H))].
Defined.

(** C3 as stated fails: not every ['downloading'] event gets a status
    line.  With a downloaded count of 2^1024 bytes, or with an ETA entry
    that is an integer of 4301 digits, the callback raises and writes
    nothing. *)
Lemma status_line_composition_counterexample :
  huge_event !! "status" = Some (PyStr "downloading")
  /\ progress_hook huge_event "" = (Raise OverflowError, "")
  /\ long_eta_event !! "status" = Some (PyStr "downloading")
  /\ progress_hook long_eta_event "" = (Raise int_str_error, "").
Proof.
  split; [vm_compute; reflexivity |].
  split; [vm_compute; reflexivity |].
  split; [vm_compute; reflexivity | exact long_eta_raises].
Qed.

(** C8.  On an event whose status is neither ['downloading'] nor
    ['finished'] the callback writes nothing and returns. *)
Theorem progress_hook_ignores_other_status
  (d : gmap string pyval) (out : string) (status : pyval)
  (Hstatus : d !! "status" = Some status)
  (Hdown : status <> PyStr "downloading")
  (Hfin : status <> PyStr "finished") :
  progress_hook d out = (Ok tt, out).
Proof. exact (progress_hook_other d out status Hstatus Hdown Hfin). Qed.

Lemma progress_hook_ignores_other_status_witness :
  merging_event !! "status" = Some (PyStr "merging")
  /\ PyStr "merging" <> PyStr "downloading"
  /\ PyStr "merging" <> PyStr "finished"
  /\ progress_hook merging_event "abc" = (Ok tt, "abc").
Proof.
  assert (H1 : merging_event !! "status" = Some (PyStr "merging"))
    by (vm_compute; reflexivity).
  assert (H2 : PyStr "merging" <> PyStr "downloading") by discriminate.
  assert (H3 : PyStr "merging" <> PyStr "finished") by discriminate.
  exact (conj H1 (conj H2 (conj H3
           (progress_hook_ignores_other_status merging_event "abc" _ H1 H2 H3)))).
Defined.

(** ** The size field *)

(** C4, as amended.  When the event reports a non-zero exact total the
    size field is "downloaded / total", both scaled by [sizeof_fmt];
    when it reports no non-zero total at all, neither an exact one nor
    an estimate (under the engine's key or under the key the callback
    reads), it is the scaled downloaded bytes alone; with no total and
    2048 bytes downloaded it is "2.0KiB".  An event with an estimate
    only is left out. *)
Theorem size_field_rendering (d : gmap string pyval) :
  (forall total, reported (d !! "total_bytes") = Some total ->
     size_str d = downloaded_slash_total (downloaded_count d) total)
  /\ (known_total d = None -> reported (d !! "total_bytes_estimated") = None ->
      size_str d = sizeof_fmt (downloaded_count d) default_suffix)
  /\ known_total no_total_event = None
  /\ size_str no_total_event = Ok "2.0KiB"
  /\ size_str overshoot_event = Ok "1.5KiB / 1000.0B".
Proof.
  split; [| split; [| split; [| split]; vm_compute; reflexivity]].
  - intros total H. rewrite size_str_reported, H. reflexivity.
  - unfold known_total. intros H H'. rewrite size_str_reported.
    destruct (reported (d !! "total_bytes")); [discriminate |].
    now rewrite H'.
Qed.

(** C4 as stated fails: a total of zero is known, yet the size field is
    the downloaded bytes alone, not "2.0KiB / 0.0B". *)
Lemma size_field_rendering_counterexample :
  zero_total_event !! "status" = Some (PyStr "downloading")
  /\ zero_total_event !! "total_bytes" = Some (PyInt 0)
  /\ size_str zero_total_event = Ok "2.0KiB"
  /\ downloaded_slash_total (PyInt 2048) (PyInt 0) = Ok "2.0KiB / 0.0B".
Proof. repeat split; vm_compute; reflexivity. Qed.

(** The estimate is read under the key [total_bytes_estimated]; the
    engine's [total_bytes_estimate] is not read, so with an estimate of
    4096 bytes and 2048 bytes downloaded the size field is still the
    downloaded bytes alone. *)
Example estimate_not_shown :
  known_total estimate_event = Some (PyInt 4096)
  /\ size_str estimate_event = Ok "2.0KiB"
  /\ downloaded_slash_total (PyInt 2048) (PyInt 4096) = Ok "2.0KiB / 4.0KiB"
  /\ size_str (<["total_bytes_estimated" := PyInt 4096]> no_total_event)
     = Ok "2.0KiB / 4.0KiB".
Proof. repeat split; vm_compute; reflexivity. Qed.

Lemma total_of_insert_zero d :
  total_of (<["total_bytes" := PyInt 0]> d) = total_of (delete "total_bytes" d).
Proof.
  unfold total_of, dict_get, dict_get_default.
  rewrite lookup_insert_eq, lookup_delete_eq.
  rewrite lookup_insert_ne, lookup_delete_ne by discriminate. reflexivity.
Qed.

Lemma size_str_insert_zero d :
  size_str (<["total_bytes" := PyInt 0]> d) = size_str (delete "total_bytes" d).
Proof.
  rewrite !size_str_unfold, total_of_insert_zero.
  unfold downloaded_of, dict_get, dict_get_default.
  rewrite lookup_insert_ne, lookup_delete_ne by discriminate. reflexivity.
Qed.

(** Lookups in an event built by insertions and deletions at known
    keys. *)
Ltac lookup_known :=
  unfold estimate_key;
  repeat first
    [ rewrite lookup_insert_eq
    | rewrite lookup_delete_eq
    | rewrite lookup_insert_ne by discriminate
    | rewrite lookup_delete_ne by discriminate ].

(** C10.  A total of 0 is treated like an absent total, whatever else
    the event holds: the size field and the whole callback are the same
    for both.  With no estimate either, the size field is then the
    downloaded bytes alone ("2.0KiB" for 2048 bytes downloaded).  An
    absent downloaded count is treated like one of zero, and with no
    total either renders as "0.0B"; the callback then writes its
    line. *)
Theorem zero_total_like_absent (d : gmap string pyval) (out : string) :
  size_str (<["total_bytes" := PyInt 0]> d) = size_str (delete "total_bytes" d)
  /\ progress_hook (<["total_bytes" := PyInt 0]> d) out
     = progress_hook (delete "total_bytes" d) out
  /\ size_str (<["total_bytes" := PyInt 0]>
                 (delete "total_bytes_estimated" (delete estimate_key d)))
     = sizeof_fmt (downloaded_count d) default_suffix
  /\ size_str zero_total_event = Ok "2.0KiB"
  /\ size_str (delete "downloaded_bytes" d)
     = size_str (<["downloaded_bytes" := PyInt 0]> d)
  /\ size_str (delete "downloaded_bytes"
                 (delete "total_bytes"
                    (delete "total_bytes_estimated" (delete estimate_key d))))
     = Ok "0.0B"
  /\ progress_hook status_only_event "" = (Ok tt, CR ++ "?%  0.0B  ? B/s  ETA ?s").
Proof.
  split; [exact (size_str_insert_zero d) |].
  split.
  { unfold progress_hook. rewrite size_str_insert_zero.
    unfold dict_index, dict_get_default. lookup_known. reflexivity. }
  split.
  { rewrite size_str_reported. unfold downloaded_count. lookup_known.
    reflexivity. }
  split; [vm_compute; reflexivity |].
  split.
  { rewrite !size_str_reported. unfold downloaded_count. lookup_known.
    reflexivity. }
  split; [| vm_compute; reflexivity].
  rewrite size_str_reported. unfold downloaded_count. lookup_known.
  vm_compute. reflexivity.
Qed.

(** ** Engine options *)

Lemma select_format_bestaudio m :
  select_format "bestaudio" m = <["format" := OStr "bestaudio/best"]> m.
Proof. reflexivity. Qed.

Lemma select_format_audio m :
  select_format "audio" m =
  <["postprocessors" := ODicts [extract_audio]]>
    (<["format" := OStr "bestaudio/best"]> m).
Proof. reflexivity. Qed.

Lemma select_format_720 m :
  select_format "720" m = <["format" := OStr (height_capped_selector "720")]> m.
Proof. reflexivity. Qed.

Lemma select_format_1080 m :
  select_format "1080" m = <["format" := OStr (height_capped_selector "1080")]> m.
Proof. reflexivity. Qed.

Lemma select_listing_lookup b (m : gmap string optval) key :
  key <> "simulate" -> key <> "quiet" -> key <> "listformats" ->
  select_listing b m !! key = m !! key.
Proof.
  intros H1 H2 H3. destruct b; [| reflexivity]. unfold select_listing.
  now rewrite !lookup_insert_ne by congruence.
Qed.

Lemma select_listing_insert b (m : gmap string optval) key v :
  key <> "simulate" -> key <> "quiet" -> key <> "listformats" ->
  select_listing b (<[key := v]> m) = <[key := v]> (select_listing b m).
Proof.
  intros H1 H2 H3. destruct b; [| reflexivity]. unfold select_listing.
  rewrite (insert_insert_ne _ "listformats" key) by congruence.
  rewrite (insert_insert_ne _ "quiet" key) by congruence.
  rewrite (insert_insert_ne _ "simulate" key) by congruence.
  reflexivity.
Qed.

Lemma initial_opts_no_postprocessors a : initial_opts a !! "postprocessors" = None.
Proof. unfold initial_opts. now rewrite !lookup_insert_ne by discriminate. Qed.

(** C5.  The options derived for [audio] and for [bestaudio] carry the
    same selector, "bestaudio/best"; those for [bestaudio] have no
    post-processor, and those for [audio] are the same options with one
    added: extract the audio, codec "m4a", quality "192". *)
Theorem audio_and_bestaudio (a : args) :
  engine_options (with_format "audio" a) !! "format" = Some (OStr "bestaudio/best")
  /\ engine_options (with_format "bestaudio" a) !! "format"
     = Some (OStr "bestaudio/best")
  /\ engine_options (with_format "bestaudio" a) !! "postprocessors" = None
  /\ engine_options (with_format "audio" a)
     = <["postprocessors" := ODicts [extract_audio]]>
         (engine_options (with_format "bestaudio" a))
  /\ extract_audio !! "key" = Some "FFmpegExtractAudio"
  /\ extract_audio !! "preferredcodec" = Some "m4a"
  /\ extract_audio !! "preferredquality" = Some "192"
  /\ size extract_audio = 3%nat.
Proof.
  unfold engine_options, with_format. cbn [args_format args_list_formats].
  rewrite select_format_audio, select_format_bestaudio.
  change (initial_opts (Args ?u ?f ?o ?l ?n)) with (initial_opts a).
  repeat split.
  - rewrite select_listing_lookup by discriminate.
    rewrite lookup_insert_ne by discriminate. now rewrite lookup_insert_eq.
  - rewrite select_listing_lookup by discriminate. now rewrite lookup_insert_eq.
  - rewrite select_listing_lookup by discriminate.
    rewrite lookup_insert_ne by discriminate. apply initial_opts_no_postprocessors.
  - now rewrite select_listing_insert by discriminate.
Qed.

(** C6.  For the caps 720 and 1080 the derived options select the best
    video no taller than the cap with the best audio, falling back to the
    best combined stream no taller than the cap, and carry no
    post-processor. *)
Theorem height_capped_options (a : args) (cap : string)
  (Hcap : cap = "720" \/ cap = "1080") :
  engine_options (with_format cap a) !! "format"
  = Some (OStr (height_capped_selector cap))
  /\ engine_options (with_format cap a) !! "postprocessors" = None.
Proof.
  unfold engine_options, with_format. cbn [args_format args_list_formats].
  change (initial_opts (Args ?u ?f ?o ?l ?n)) with (initial_opts a).
  rewrite !select_listing_lookup by discriminate.
  destruct Hcap as [-> | ->];
    rewrite ?select_format_720, ?select_format_1080;
    rewrite lookup_insert_eq, lookup_insert_ne by discriminate;
    auto using initial_opts_no_postprocessors.
Qed.

Lemma height_capped_options_witness :
  ("1080" = "720" \/ "1080" = "1080")
  /\ engine_options (with_format "1080" args_1080) !! "format"
     = Some (OStr (height_capped_selector "1080"))
  /\ engine_options (with_format "1080" args_1080) !! "postprocessors" = None.
Proof.
  assert (H : "1080" = "720" \/ "1080" = "1080") by (right; reflexivity).
  exact (conj H (height_capped_options args_1080 "1080" H)).
Defined.

(** ** The run *)

Lemma in_choices_false v choices : ~ In v choices -> in_choices v choices = false.
Proof.
  intros H. unfold in_choices.
  destruct (existsb (String.eqb v) choices) eqn:E; [| reflexivity].
  apply existsb_exists in E. destruct E as (c & Hc & Heq).
  apply String.eqb_eq in Heq. subst c. contradiction.
Qed.

(** The [if]/[elif] chain alone leaves the options as they are for a
    value outside the choices: the engine would get no ["format"]. *)
Lemma select_format_unsupported v m :
  ~ In v format_choices -> select_format v m = m.
Proof.
  intros H. unfold select_format.
  repeat match goal with
         | |- context [String.eqb v ?c] =>
             destruct (String.eqb_spec v c) as [-> | _];
             [exfalso; apply H; cbn; tauto |]
         end.
  reflexivity.
Qed.

Lemma append_assoc (a b c : string) : (a ++ b) ++ c = a ++ b ++ c.
Proof.
  induction a as [| ch a IH]; [reflexivity |].
  change (String ch a ++ b) with (String ch (a ++ b)).
  change (String ch (a ++ b) ++ c) with (String ch ((a ++ b) ++ c)).
  change (String ch a ++ b ++ c) with (String ch (a ++ b ++ c)).
  now rewrite IH.
Qed.

(** The run fails when the engine does: in [YoutubeDL(ydl_opts)], before
    anything is announced, or in [extract_info]. *)
Lemma main_try_raises_opening e a log exc :
  YoutubeDL e (engine_options a) = (log, Raise exc) ->
  main_try e a (engine_options a) "" = (Raise exc, log).
Proof.
  intros H. unfold main_try, call. cbv [mbind io_bind]. rewrite H. reflexivity.
Qed.

Lemma main_try_raises_extracting e a log0 log exc :
  YoutubeDL e (engine_options a) = (log0, Ok tt) ->
  extract_info e (engine_options a) (args_url a) (negb (args_list_formats a))
  = (log, Raise exc) ->
  main_try e a (engine_options a) ""
  = (Raise exc, log0 ++ LF ++ "Fetching info... " ++ args_url a ++ LF ++ log).
Proof.
  intros H0 H. unfold main_try, call, print. cbv [mbind io_bind].
  rewrite H0, H. cbn [fst snd String.append]. rewrite !append_assoc. reflexivity.
Qed.

(** C7.  A [-f] value outside the six choices is rejected when the
    arguments are parsed: [main] exits with status 2 before any option
    is derived, whatever the engine, and writes nothing to standard
    output. *)
Theorem unsupported_format_rejected (e : engine) (cl : cmdline) (v : string)
  (Hformat : cl_format cl = Some v)
  (Hout : ~ In v format_choices) :
  parse_args cl = None /\ main e cl = (Exits 2, "").
Proof.
  assert (H : parse_args cl = None).
  { unfold parse_args. destruct (cl_url cl); [| reflexivity].
    rewrite Hformat, (in_choices_false _ _ Hout). reflexivity. }
  split; [exact H |]. unfold main. now rewrite H.
Qed.

Lemma unsupported_format_rejected_witness :
  cl_format cmdline_4k = Some "4k"
  /\ ~ In "4k" format_choices
  /\ parse_args cmdline_4k = None
  /\ main (failing_engine http_403) cmdline_4k = (Exits 2, "").
Proof.
  assert (H1 : cl_format cmdline_4k = Some "4k") by reflexivity.
  assert (H2 : ~ In "4k" format_choices).
  { cbn. intros H. repeat (destruct H as [H | H]; [discriminate H |]). exact H. }
  exact (conj H1 (conj H2
           (unsupported_format_rejected (failing_engine http_403) cmdline_4k "4k" H1 H2))).
Defined.

(** C9.  When the run fails, that is when the engine raises in
    [YoutubeDL(ydl_opts)] or in [extract_info], [main] writes a blank
    line and then, for a [DownloadError], "Download failed: " and the
    error's text, and for any other [Exception], "Unexpected error: ",
    the class name, ": " and the error's text; either way it calls
    [sys.exit(1)].  An exception that is not an [Exception] is not
    caught. *)
Theorem engine_failure_handling (e : engine) (cl : cmdline) (a : args)
  (out : string) (exc : pyexc)
  (Hargs : parse_args cl = Some a)
  (Hfail : main_try e a (engine_options a) "" = (Raise exc, out)) :
  main e cl =
    match exc_base_of exc with
    | FromDownloadError =>
        (Exits 1, out ++ LF ++ "Download failed: " ++ exc_str exc ++ LF)
    | FromException =>
        (Exits 1,
         out ++ LF ++ "Unexpected error: " ++ exc_name exc ++ ": " ++ exc_str exc ++ LF)
    | FromBaseException => (Propagates exc, out)
    end.
Proof.
  unfold main. rewrite Hargs. cbv zeta. rewrite Hfail.
  unfold main_except, print. cbv [mbind io_bind mret io_ret].
  destruct (exc_base_of exc); rewrite ?append_assoc; reflexivity.
Qed.

Lemma engine_failure_handling_witness :
  parse_args cmdline_1080 = Some args_1080
  /\ main_try (failing_engine http_403) args_1080 (engine_options args_1080) ""
     = (Raise http_403, "" ++ LF ++ "Fetching info... " ++ args_url args_1080 ++ LF ++ "")
  /\ main (failing_engine http_403) cmdline_1080 =
       (Exits 1,
        ("" ++ LF ++ "Fetching info... " ++ args_url args_1080 ++ LF ++ "")
        ++ LF ++ "Download failed: " ++ exc_str http_403 ++ LF).
Proof.
  assert (H1 : parse_args cmdline_1080 = Some args_1080) by reflexivity.
  assert (H2 : main_try (failing_engine http_403) args_1080 (engine_options args_1080) ""
               = (Raise http_403,
                  "" ++ LF ++ "Fetching info... " ++ args_url args_1080 ++ LF ++ ""))
    by (apply main_try_raises_extracting; reflexivity).
  exact (conj H1 (conj H2
           (engine_failure_handling (failing_engine http_403) cmdline_1080
              args_1080 _ http_403 H1 H2))).
Defined.

(** The same run with a failure that is not a download error. *)
Example unexpected_failure_run :
  main (failing_engine bad_template) cmdline_1080 =
  (Exits 1,
   LF ++ "Fetching info... https://youtu.be/dQw4w9WgXcQ" ++ LF
      ++ LF ++ "Unexpected error: ValueError: unsupported format character" ++ LF).
Proof. vm_compute. reflexivity. Qed.

(** * Further properties *)

(** ** Exact arithmetic of the float model on normal numbers *)

Lemma digits2_pos_size p : digits2_pos p = Pos.size p.
Proof. induction p as [p IH | p IH |]; cbn; now rewrite ?IH. Qed.

Lemma digits2_pos_bounds p :
  2 ^ (Zpos (digits2_pos p) - 1) <= Zpos p < 2 ^ Zpos (digits2_pos p).
Proof.
  rewrite digits2_pos_size.
  pose proof (Pos.size_gt p) as Hgt. pose proof (Pos.size_le p) as Hle.
  apply Pos2Z.pos_lt_pos in Hgt. apply Pos2Z.pos_le_pos in Hle.
  rewrite Pos2Z.inj_pow in Hgt, Hle.
  change (Zpos 2) with 2 in *.
  replace (Zpos (Pos.size p)) with (Z.succ (Zpos (Pos.size p) - 1)) in Hle at 1 by lia.
  rewrite Z.pow_succ_r in Hle by lia. lia.
Qed.

Lemma iter_xO_value p k : Zpos (Pos.iter xO p k) = Zpos p * 2 ^ Zpos k.
Proof.
  induction k as [| k IH] using Pos.peano_ind.
  - cbn. lia.
  - rewrite Pos.iter_succ, Pos2Z.inj_xO, IH, Pos2Z.inj_succ, Z.pow_succ_r by lia. lia.
Qed.

Lemma iter_xO_digits p k :
  digits2_pos (Pos.iter xO p k) = (digits2_pos p + k)%positive.
Proof.
  induction k as [| k IH] using Pos.peano_ind.
  - cbn. lia.
  - rewrite Pos.iter_succ. cbn [digits2_pos]. rewrite IH. lia.
Qed.

Lemma fexp_normal d : -1021 <= d -> fexp prec emax d = d - 53.
Proof. intros H. unfold fexp, emin, prec, emax. lia. Qed.

(** A 53-bit mantissa with an exponent in range is already rounded. *)
Lemma binary_round_aux_canonical s m e :
  digits2_pos m = 53%positive -> -1074 <= e <= 971 ->
  binary_round_aux prec emax s (Zpos m) e loc_Exact = S754_finite s m e.
Proof.
  intros Hm He. unfold binary_round_aux, shr_fexp.
  cbn [Zdigits2 shr_record_of_loc]. rewrite Hm.
  rewrite fexp_normal by lia.
  replace (53 + e - 53 - e) with 0 by lia. cbn [shr shr_m loc_of_shr_record round_nearest_even].
  cbn [Zdigits2 shr_record_of_loc]. rewrite Hm.
  rewrite fexp_normal by lia.
  replace (53 + e - 53 - e) with 0 by lia. cbn [shr shr_m].
  unfold emax, prec. destruct (Z.leb_spec e (1024 - 53)); [reflexivity | lia].
Qed.

Lemma int_float_limit_large : 2 ^ 53 < int_float_limit.
Proof. vm_compute. reflexivity. Qed.

(** [float(n)] is exact for 0 < n < 2^53: a 53-bit mantissa [m] and an
    exponent [e] with m * 2^e = n. *)
Lemma float_of_int_exact p :
  Zpos p < 2 ^ 53 ->
  exists m e,
    float_of_int (Zpos p) = Ok (S754_finite false m e)
    /\ digits2_pos m = 53%positive
    /\ e = Zpos (digits2_pos p) - 53
    /\ Zpos m = Zpos p * 2 ^ (- e).
Proof.
  intros Hp. pose proof (digits2_pos_bounds p) as [Hlo Hhi].
  assert (Hd : Zpos (digits2_pos p) <= 53).
  { destruct (Z.le_gt_cases (Zpos (digits2_pos p)) 53) as [H | H]; [exact H |].
    assert (2 ^ 53 <= 2 ^ (Zpos (digits2_pos p) - 1)) by (apply Z.pow_le_mono_r; lia).
    lia. }
  unfold float_of_int.
  pose proof int_float_limit_large as Hlim.
  destruct (Z.leb_spec int_float_limit (Z.abs (Zpos p))) as [H | _];
    [rewrite Z.abs_eq in H by lia; lia |].
  cbn [binary_normalize]. unfold binary_round, shl_align.
  rewrite fexp_normal by lia.
  replace (Zpos (digits2_pos p) + 0 - 53 - 0) with (Zpos (digits2_pos p) - 53) by lia.
  destruct (Zpos (digits2_pos p) - 53) as [| q | q] eqn:E; [| lia |].
  - exists p, 0. rewrite binary_round_aux_canonical by lia.
    repeat split; first [lia | cbn; lia].
  - replace (Zpos (digits2_pos p) + 0 - 53) with (Zneg q) by lia.
    exists (Pos.iter xO p q), (Zneg q).
    rewrite binary_round_aux_canonical; [| rewrite iter_xO_digits; lia | lia].
    repeat split.
    + rewrite iter_xO_digits. lia.
    + rewrite iter_xO_value. reflexivity.
Qed.

Lemma div_eucl_pair a b : Z.div_eucl a b = (a / b, a mod b).
Proof. unfold Z.div, Z.modulo. now destruct (Z.div_eucl a b). Qed.

(** Dividing a normal number by 1024.0 lowers its exponent by 10. *)
Lemma SFdiv_1024_normal s m e :
  digits2_pos m = 53%positive -> -1063 <= e <= 981 ->
  SFdiv prec emax (S754_finite s m e) float_1024 = S754_finite s m (e - 10).
Proof.
  intros Hm He. unfold float_1024. cbn [SFdiv]. rewrite xorb_false_r.
  unfold SFdiv_core_binary. cbn [Zdigits2]. rewrite Hm.
  change (Zpos (digits2_pos 4503599627370496)) with 53.
  rewrite fexp_normal by lia.
  replace (Z.min (53 + e - (53 + -42) - 53) (e - -42)) with (e - 11) by lia.
  replace (e - -42 - (e - 11)) with 53 by lia.
  rewrite div_eucl_pair.
  rewrite Z.shiftl_mul_pow2 by lia.
  replace (Zpos m * 2 ^ 53) with (Zpos m~0 * 4503599627370496)
    by (change (2 ^ 53) with (2 * 4503599627370496); lia).
  rewrite Z.div_mul, Z.mod_mul by lia.
  change (new_location 4503599627370496 0) with loc_Exact.
  unfold binary_round_aux, shr_fexp.
  cbn [Zdigits2 shr_record_of_loc digits2_pos]. rewrite Hm.
  change (Zpos (Pos.succ 53)) with 54.
  rewrite fexp_normal by lia.
  replace (54 + (e - 11) - 53 - (e - 11)) with 1 by lia.
  cbn [shr SpecFloat.iter_pos shr_1 shr_m loc_of_shr_record round_nearest_even orb].
  cbn [Zdigits2 shr_record_of_loc]. rewrite Hm.
  rewrite fexp_normal by lia.
  replace (53 + (e - 11 + 1) - 53 - (e - 11 + 1)) with 0 by lia. cbn [shr shr_m].
  unfold emax, prec. destruct (Z.leb_spec (e - 11 + 1) (1024 - 53)); [| lia].
  f_equal. lia.
Qed.

Lemma magnitude_lt_1024_normal m e :
  digits2_pos m = 53%positive ->
  magnitude_lt_1024 (PyFloat (S754_finite false m e)) = Ok (e <? -42).
Proof.
  intros Hm. unfold magnitude_lt_1024, py_abs. cbn [mbind result_bind SFabs].
  unfold py_lt_float, py_compare_float, float_1024. cbn [SFcompare].
  destruct (Z.compare_spec e (-42)) as [-> | H | H].
  - replace (Pos.compare_cont Eq m 4503599627370496) with (m ?= 4503599627370496)%positive
      by reflexivity.
    pose proof (digits2_pos_bounds m) as [Hlo _]. rewrite Hm in Hlo.
    change (2 ^ (53 - 1)) with 4503599627370496 in Hlo.
    destruct (Pos.compare_spec m 4503599627370496) as [| Hlt |]; try reflexivity.
    apply Pos2Z.pos_lt_pos in Hlt. clear Hm. lia.
  - destruct (Z.ltb_spec e (-42)); [reflexivity | lia].
  - destruct (Z.ltb_spec e (-42)); [lia | reflexivity].
Qed.

Lemma pad_left_zero c s : pad_left c 0 s = s.
Proof. reflexivity. Qed.

(** The loop on a normal float: [j] divisions, then the [j]-th unit. *)
Lemma sizeof_fmt_loop_normal (j : nat) : forall us m e suffix,
  digits2_pos m = 53%positive ->
  (j < length us)%nat ->
  10 * Z.of_nat j < e + 53 <= 10 * Z.of_nat j + 10 ->
  e <= 0 ->
  sizeof_fmt_loop us (PyFloat (S754_finite false m e)) suffix
  = Ok (format_float_f 1 (S754_finite false m (e - 10 * Z.of_nat j))
        ++ nth j us "" ++ suffix).
Proof.
  induction j as [| j IH]; intros us m e suffix Hm Hlen He He0;
    (destruct us as [| unit_ us]; [cbn in Hlen; lia |]);
    rewrite sizeof_fmt_loop_cons, magnitude_lt_1024_normal by exact Hm.
  - destruct (Z.ltb_spec e (-42)); [| lia]. cbn [mbind result_bind].
    rewrite py_format_f_width. unfold one_decimal. cbn [py_format_f mbind result_bind].
    rewrite pad_left_zero. replace (e - 10 * Z.of_nat 0) with e by lia. reflexivity.
  - destruct (Z.ltb_spec e (-42)); [lia |]. cbn [mbind result_bind].
    unfold py_truediv_float, float_div. cbn [float_is_zero float_1024].
    change (S754_finite false 4503599627370496 (-42)) with float_1024.
    rewrite SFdiv_1024_normal by (try exact Hm; lia). cbn [mbind result_bind].
    rewrite IH; [| exact Hm | cbn in Hlen; lia | lia | lia].
    replace (e - 10 - 10 * Z.of_nat j) with (e - 10 * Z.of_nat (S j)) by lia.
    reflexivity.
Qed.

Lemma mul_compare_cancel c a b : 0 < c -> (c * a ?= c * b) = (a ?= b).
Proof.
  intros Hc. destruct (Z.compare_spec a b) as [-> | H | H].
  - apply Z.compare_refl.
  - apply Z.compare_lt_iff. nia.
  - apply Z.compare_gt_iff. nia.
Qed.

Lemma div_half_even_cancel c a b :
  0 < c -> 0 < b -> div_half_even (c * a) (c * b) = div_half_even a b.
Proof.
  intros Hc Hb. unfold div_half_even.
  rewrite Z.div_mul_cancel_l, Z.mul_mod_distr_l by lia.
  replace (2 * (c * (a mod b))) with (c * (2 * (a mod b))) by lia.
  rewrite mul_compare_cancel by lia. reflexivity.
Qed.

(** Rendering a normal float below 1: the tenths of its exact value. *)
Lemma format_float_f_normal m e num den :
  e < 0 -> 0 < den ->
  Zpos m * den = num * 2 ^ (- e) ->
  format_float_f 1 (S754_finite false m e) = fixed_digits (div_half_even (10 * num) den) 1.
Proof.
  intros He Hden Hval. unfold format_float_f. cbn [float_sign].
  destruct (Z.leb_spec 0 e); [lia |].
  change (10 ^ Z.of_nat 1) with 10.
  change ("" ++ ?s) with s. f_equal.
  assert (Hp : 0 < 2 ^ (- e)) by (apply Z.pow_pos_nonneg; lia).
  rewrite <- (div_half_even_cancel den (Zpos m * 10) (2 ^ (- e))) by lia.
  rewrite <- (div_half_even_cancel (2 ^ (- e)) (10 * num) den) by lia.
  f_equal; lia.
Qed.

Lemma pow_1024 k : 0 <= k -> 1024 ^ k = 2 ^ (10 * k).
Proof. intros H. rewrite Z.pow_mul_r by lia. reflexivity. Qed.

Lemma magnitude_lt_1024_int n :
  magnitude_lt_1024 (PyInt n) = Ok (Z.abs n <? 1024).
Proof.
  unfold magnitude_lt_1024, py_abs. cbn [mbind result_bind].
  unfold py_lt_float, py_compare_float, int_float_compare, float_1024.
  cbn [cond_Zopp]. change (0 <=? -42) with false. cbv iota.
  change (2 ^ (- -42)) with 4398046511104.
  change (Zpos 4503599627370496) with (4398046511104 * 1024).
  rewrite (Z.mul_comm (Z.abs n)), mul_compare_cancel by lia.
  destruct (Z.ltb_spec (Z.abs n) 1024) as [H | H].
  - apply Z.compare_lt_iff in H. now rewrite H.
  - apply Z.compare_ge_iff in H. destruct (Z.abs n ?= 1024); congruence.
Qed.

(** Magnitude in bits against magnitude in units of 1024. *)
Lemma digits_of_range p k :
  1024 ^ k <= Zpos p < 1024 ^ (k + 1) -> 0 <= k ->
  10 * k < Zpos (digits2_pos p) <= 10 * k + 10.
Proof.
  intros [Hlo Hhi] Hk. pose proof (digits2_pos_bounds p) as [Hdlo Hdhi].
  rewrite pow_1024 in Hlo, Hhi by lia.
  split.
  - apply (Z.pow_lt_mono_r_iff 2); lia.
  - assert (Zpos (digits2_pos p) - 1 < 10 * (k + 1)); [| lia].
    apply (Z.pow_lt_mono_r_iff 2); lia.
Qed.

Lemma sizeof_fmt_tenths_pos (p : positive) (k : nat) (suffix : string)
  (Hn : 0 <= Zpos p < 2 ^ 53)
  (Hlo : k = 0%nat \/ 1024 ^ Z.of_nat k <= Zpos p)
  (Hhi : Zpos p < 1024 ^ (Z.of_nat k + 1)) :
  sizeof_fmt (PyInt (Zpos p)) suffix
  = Ok (fixed_digits (exact_tenths (Zpos p) k) 1 ++ nth k units "" ++ suffix).
Proof.
  unfold exact_tenths.
  destruct (float_of_int_exact p (proj2 Hn)) as (m & e & Hfloat & Hm & He & Hval).
  assert (He0 : e <= 0).
  { pose proof (digits2_pos_bounds p) as [Hdlo _].
    assert (Zpos (digits2_pos p) - 1 < 53); [| lia].
    apply (Z.pow_lt_mono_r_iff 2); lia. }
  unfold sizeof_fmt, units. rewrite sizeof_fmt_loop_cons, magnitude_lt_1024_int.
  rewrite Z.abs_eq by lia.
  destruct k as [| k].
  - change (1024 ^ (Z.of_nat 0 + 1)) with 1024 in Hhi.
    destruct (Z.ltb_spec (Zpos p) 1024); [| lia]. cbn [mbind result_bind].
    rewrite py_format_f_width. unfold one_decimal, py_format_f.
    rewrite Hfloat. cbn [mbind result_bind]. rewrite pad_left_zero.
    pose proof (digits_of_range p 0 ltac:(change (1024 ^ 0) with 1; change (1024 ^ (0 + 1)) with 1024; lia) ltac:(lia)) as Hd.
    rewrite (format_float_f_normal m e (Zpos p) 1) by lia.
    reflexivity.
  - destruct Hlo as [Hk | Hlo]; [discriminate |].
    assert (Hr : 1024 ^ Z.of_nat (S k) <= Zpos p < 1024 ^ (Z.of_nat (S k) + 1)) by lia.
    pose proof (digits_of_range p _ Hr ltac:(lia)) as Hd.
    assert (1024 <= Zpos p).
    { assert (1024 ^ 1 <= 1024 ^ Z.of_nat (S k)) by (apply Z.pow_le_mono_r; lia).
      change (1024 ^ 1) with 1024 in *. lia. }
    assert (Hk5 : 10 * Z.of_nat (S k) < 53).
    { apply (Z.pow_lt_mono_r_iff 2); [lia | lia |].
      rewrite <- pow_1024 by lia. lia. }
    destruct (Z.ltb_spec (Zpos p) 1024); [lia |]. cbn [mbind result_bind].
    unfold py_truediv_float. rewrite Hfloat. cbn [mbind result_bind].
    unfold float_div. cbn [float_is_zero float_1024].
    change (S754_finite false 4503599627370496 (-42)) with float_1024.
    rewrite SFdiv_1024_normal by (try exact Hm; lia). cbn [mbind result_bind].
    rewrite (sizeof_fmt_loop_normal k); [| exact Hm | cbn; lia | lia | lia].
    rewrite (format_float_f_normal m _ (Zpos p) (1024 ^ Z.of_nat (S k))).
    + reflexivity.
    + lia.
    + apply Z.pow_pos_nonneg; lia.
    + rewrite Hval. rewrite pow_1024 by lia.
      rewrite <- Z.mul_assoc, <- Z.pow_add_r by lia. do 2 f_equal. lia.
Qed.

(** X1.  For a count n below 2^53 with 1024^k <= n < 1024^(k+1) (k = 0 for
    n below 1024), [sizeof_fmt] renders the exact quotient n / 1024^k
    rounded to one decimal, ties to even, followed by the k-th unit and
    the suffix: the float arithmetic loses nothing. *)
Theorem sizeof_fmt_exact (n : Z) (k : nat) (suffix : string)
  (Hn : 0 <= n < 2 ^ 53)
  (Hlo : k = 0%nat \/ 1024 ^ Z.of_nat k <= n)
  (Hhi : n < 1024 ^ (Z.of_nat k + 1)) :
  sizeof_fmt (PyInt n) suffix
  = Ok (fixed_digits (exact_tenths n k) 1 ++ nth k units "" ++ suffix).
Proof.
  destruct n as [| p | p]; [| | lia].
  - assert (k = 0%nat) as ->.
    { destruct Hlo as [H | H]; [exact H |].
      assert (0 < 1024 ^ Z.of_nat k) by (apply Z.pow_pos_nonneg; lia). lia. }
    vm_compute. reflexivity.
  - now apply sizeof_fmt_tenths_pos.
Qed.

Lemma div_half_even_1 a : div_half_even a 1 = a.
Proof.
  unfold div_half_even. rewrite Z.mod_1_r, Z.div_1_r. reflexivity.
Qed.

Lemma fixed_digits_whole n : fixed_digits (10 * n) 1 = pretty n ++ ".0".
Proof.
  unfold fixed_digits. change (10 ^ Z.of_nat 1) with 10.
  rewrite (Z.mul_comm 10 n), Z.div_mul, Z.mod_mul by lia. reflexivity.
Qed.

(** X2.  Below 1024 the count is shown as it is, followed by ".0" and the
    suffix. *)
Theorem sizeof_fmt_bytes (n : Z) (suffix : string) (Hn : 0 <= n < 1024) :
  sizeof_fmt (PyInt n) suffix = Ok (pretty n ++ ".0" ++ suffix).
Proof.
  assert (Hshape : fixed_digits (exact_tenths n 0) 1 ++ nth 0 units "" ++ suffix
                   = pretty n ++ ".0" ++ suffix).
  { unfold exact_tenths. change (1024 ^ Z.of_nat 0) with 1.
    rewrite div_half_even_1, fixed_digits_whole.
    cbn [nth units]. now rewrite append_assoc. }
  rewrite <- Hshape.
  destruct n as [| p | p]; [vm_compute; reflexivity | | lia].
  apply sizeof_fmt_tenths_pos;
    [ change (2 ^ 53) with 9007199254740992; lia | now left
    | change (1024 ^ (Z.of_nat 0 + 1)) with 1024; lia ].
Qed.

Lemma sizeof_fmt_bytes_witness :
  0 <= 1023 < 1024
  /\ sizeof_fmt (PyInt 1023) "B" = Ok (pretty 1023 ++ ".0" ++ "B").
Proof.
  assert (H : 0 <= 1023 < 1024) by lia.
  exact (conj H (sizeof_fmt_bytes 1023 "B" H)).
Defined.

(** The suffix is appended as it is: it has no part in the scaling. *)
Lemma sizeof_fmt_loop_suffix us : forall num suffix,
  sizeof_fmt_loop us num suffix = (s ← sizeof_fmt_loop us num ""; Ok (s ++ suffix)).
Proof.
  induction us as [| unit_ us IH]; intros num suffix.
  - cbn [sizeof_fmt_loop]. destruct (py_format_f 0 1 num) as [s | e];
      cbn [mbind result_bind]; [| reflexivity].
    rewrite !append_assoc. reflexivity.
  - rewrite !sizeof_fmt_loop_cons.
    destruct (magnitude_lt_1024 num) as [[|] | e]; cbn [mbind result_bind];
      [| | reflexivity].
    + destruct (py_format_f 3 1 num) as [s | e]; cbn [mbind result_bind];
        [| reflexivity].
      rewrite !append_assoc. reflexivity.
    + destruct (py_truediv_float num float_1024) as [num' | e];
        cbn [mbind result_bind]; [apply IH | reflexivity].
Qed.

(** X3.  The suffix has no part in the scaling: the result for any suffix
    is the result for the empty suffix with the suffix appended, and a
    failure is the same failure. *)
Theorem sizeof_fmt_suffix (num : pyval) (suffix : string) :
  sizeof_fmt num suffix = (s ← sizeof_fmt num ""; Ok (s ++ suffix)).
Proof. apply sizeof_fmt_loop_suffix. Qed.

Lemma int_float_limit_above_1024 : 1024 <= int_float_limit.
Proof. vm_compute. discriminate. Qed.

Lemma sizeof_fmt_overflow n suffix :
  int_float_limit <= Z.abs n -> sizeof_fmt (PyInt n) suffix = Raise OverflowError.
Proof.
  intros H. pose proof int_float_limit_above_1024 as Hl.
  unfold sizeof_fmt, units. rewrite sizeof_fmt_loop_cons, magnitude_lt_1024_int.
  destruct (Z.ltb_spec (Z.abs n) 1024); [lia |]. cbn [mbind result_bind].
  unfold py_truediv_float, float_of_int.
  destruct (Z.leb_spec int_float_limit (Z.abs n)); [reflexivity | lia].
Qed.

(** X4.  Which inputs [sizeof_fmt] renders and how it fails on the others:
    [None] and strings raise TypeError out of [abs], an integer from
    2^1024 - 2^970 on raises OverflowError, every other integer and every
    float is rendered. *)
Theorem sizeof_fmt_outcome (num : pyval) (suffix : string) :
  match num with
  | PyNone | PyStr _ =>
      sizeof_fmt num suffix
      = Raise (TypeError ("bad operand type for abs(): '" ++ type_name num ++ "'"))
  | PyInt n =>
      if int_float_limit <=? Z.abs n
      then sizeof_fmt num suffix = Raise OverflowError
      else exists s, sizeof_fmt num suffix = Ok s
  | PyFloat _ => exists s, sizeof_fmt num suffix = Ok s
  end.
Proof.
  destruct num as [| n | x | t]; try reflexivity.
  - destruct (Z.leb_spec int_float_limit (Z.abs n)) as [H | H].
    + now apply sizeof_fmt_overflow.
    + apply sizeof_fmt_loop_formattable. exact H.
  - apply sizeof_fmt_loop_formattable. exact I.
Qed.


(** ** Negative numbers *)

Lemma binary_round_aux_opp m e l :
  binary_round_aux prec emax true m e l
  = SFopp (binary_round_aux prec emax false m e l).
Proof.
  unfold binary_round_aux.
  destruct (shr_fexp prec emax m e l) as [mrs' e'].
  destruct (shr_fexp prec emax _ e' loc_Exact) as [mrs'' e''].
  destruct (shr_m mrs''); [reflexivity | | reflexivity].
  destruct (e'' <=? emax - prec); reflexivity.
Qed.

Lemma binary_round_aux_sign m e l :
  float_sign (binary_round_aux prec emax false m e l) = false.
Proof.
  unfold binary_round_aux.
  destruct (shr_fexp prec emax m e l) as [mrs' e'].
  destruct (shr_fexp prec emax _ e' loc_Exact) as [mrs'' e''].
  destruct (shr_m mrs''); [reflexivity | | reflexivity].
  destruct (e'' <=? emax - prec); reflexivity.
Qed.

Lemma SFopp_involutive x : SFopp (SFopp x) = x.
Proof. destruct x as [s | s | | s m e]; cbn; now rewrite ?negb_involutive. Qed.

Lemma float_of_int_neg p :
  float_of_int (Zneg p) = (x ← float_of_int (Zpos p); Ok (SFopp x)).
Proof.
  unfold float_of_int. change (Z.abs (Zneg p)) with (Z.abs (Zpos p)).
  destruct (int_float_limit <=? Z.abs (Zpos p)); [reflexivity |].
  cbn [mbind result_bind binary_normalize]. unfold binary_round.
  destruct (shl_align p 0 _) as [mz ez]. now rewrite binary_round_aux_opp.
Qed.

Lemma float_of_int_pos_sign p x :
  float_of_int (Zpos p) = Ok x -> float_sign x = false /\ x <> S754_nan.
Proof.
  unfold float_of_int. destruct (int_float_limit <=? Z.abs (Zpos p)); [discriminate |].
  intros [= <-]. split; [| apply (binary_normalize_not_nan prec emax (Zpos p) 0 false)].
  cbn [binary_normalize]. unfold binary_round.
  destruct (shl_align p 0 _) as [mz ez]. apply binary_round_aux_sign.
Qed.

Lemma SFdiv_1024_opp x :
  SFdiv prec emax (SFopp x) float_1024 = SFopp (SFdiv prec emax x float_1024).
Proof.
  destruct x as [s | s | | s m e]; unfold float_1024; cbn [SFopp SFdiv];
    rewrite ?xorb_false_r; try reflexivity.
  destruct (SFdiv_core_binary prec emax (Zpos m) e 4503599627370496 (-42))
    as [[mz ez] lz].
  destruct s; cbn [negb]; rewrite binary_round_aux_opp;
    [now rewrite SFopp_involutive | reflexivity].
Qed.

Lemma SFdiv_1024_sign x :
  float_sign x = false -> float_sign (SFdiv prec emax x float_1024) = false.
Proof.
  destruct x as [s | s | | s m e]; unfold float_1024; cbn [SFdiv float_sign];
    rewrite ?xorb_false_r; try tauto.
  intros ->.
  destruct (SFdiv_core_binary prec emax (Zpos m) e 4503599627370496 (-42))
    as [[mz ez] lz].
  apply binary_round_aux_sign.
Qed.

Lemma format_float_f_opp p x :
  float_sign x = false -> x <> S754_nan ->
  format_float_f p (SFopp x) = "-" ++ format_float_f p x.
Proof.
  destruct x as [s | s | | s m e]; cbn [float_sign]; try congruence;
    intros -> _; reflexivity.
Qed.

Lemma SFabs_opp x : SFabs (SFopp x) = SFabs x.
Proof. destruct x; reflexivity. Qed.

Lemma one_decimal_opp x :
  float_sign x = false -> x <> S754_nan ->
  py_format_f 3 1 (PyFloat (SFopp x))
  = (s ← py_format_f 3 1 (PyFloat x); Ok ("-" ++ s)).
Proof.
  intros Hs Hn. rewrite !py_format_f_width. unfold one_decimal, py_format_f.
  cbn [mbind result_bind]. rewrite !pad_left_zero. now rewrite format_float_f_opp.
Qed.

Lemma sizeof_fmt_loop_opp us : forall x suffix,
  float_sign x = false -> x <> S754_nan ->
  sizeof_fmt_loop us (PyFloat (SFopp x)) suffix
  = (s ← sizeof_fmt_loop us (PyFloat x) suffix; Ok ("-" ++ s)).
Proof.
  induction us as [| unit_ us IH]; intros x suffix Hs Hn.
  - cbn [sizeof_fmt_loop py_format_f mbind result_bind].
    rewrite !pad_left_zero, format_float_f_opp by assumption. reflexivity.
  - rewrite !sizeof_fmt_loop_cons.
    unfold magnitude_lt_1024, py_abs. cbn [mbind result_bind]. rewrite SFabs_opp.
    destruct (py_lt_float (PyFloat (SFabs x)) float_1024) as [[|] | e];
      cbn [mbind result_bind]; [| | reflexivity].
    + rewrite one_decimal_opp by assumption.
      destruct (py_format_f 3 1 (PyFloat x)); reflexivity.
    + unfold py_truediv_float, float_div. cbn [float_is_zero float_1024].
      change (S754_finite false 4503599627370496 (-42)) with float_1024.
      cbn [mbind result_bind]. rewrite SFdiv_1024_opp.
      apply IH; [now apply SFdiv_1024_sign | now apply SFdiv_finite_not_nan].
Qed.

(** X5.  A negative count is rendered as a minus sign followed by the
    rendering of its magnitude, and fails as its magnitude does. *)
Theorem sizeof_fmt_negative (n : Z) (suffix : string) (Hn : 0 < n) :
  sizeof_fmt (PyInt (- n)) suffix
  = (s ← sizeof_fmt (PyInt n) suffix; Ok ("-" ++ s)).
Proof.
  destruct n as [| p | p]; try lia. change (- Zpos p) with (Zneg p).
  unfold sizeof_fmt, units. rewrite !sizeof_fmt_loop_cons, !magnitude_lt_1024_int.
  change (Z.abs (Zneg p)) with (Z.abs (Zpos p)).
  destruct (Z.abs (Zpos p) <? 1024); cbn [mbind result_bind].
  - rewrite !py_format_f_width. unfold one_decimal, py_format_f.
    rewrite float_of_int_neg.
    destruct (float_of_int (Zpos p)) as [x | e] eqn:E; cbn [mbind result_bind];
      [| reflexivity].
    destruct (float_of_int_pos_sign p x E) as [Hs Hnan].
    rewrite !pad_left_zero, format_float_f_opp by assumption. reflexivity.
  - unfold py_truediv_float. rewrite float_of_int_neg.
    destruct (float_of_int (Zpos p)) as [x | e] eqn:E; cbn [mbind result_bind];
      [| reflexivity].
    destruct (float_of_int_pos_sign p x E) as [Hs Hnan].
    unfold float_div. cbn [float_is_zero float_1024].
    change (S754_finite false 4503599627370496 (-42)) with float_1024.
    cbn [mbind result_bind]. rewrite SFdiv_1024_opp.
    apply sizeof_fmt_loop_opp; [now apply SFdiv_1024_sign | now apply SFdiv_finite_not_nan].
Qed.

Lemma sizeof_fmt_negative_witness :
  0 < 5000
  /\ sizeof_fmt (PyInt (- 5000)) "B"
     = (s ← sizeof_fmt (PyInt 5000) "B"; Ok ("-" ++ s)).
Proof.
  assert (H : 0 < 5000) by lia.
  exact (conj H (sizeof_fmt_negative 5000 "B" H)).
Defined.

(** ** The callback as a whole *)

(** X6.  On a ['finished'] event the callback writes the completion
    message and a newline once and returns, whatever else the event
    holds. *)
Theorem progress_hook_finished (d : gmap string pyval) (out : string)
  (Hstatus : d !! "status" = Some (PyStr "finished")) :
  progress_hook d out
  = (Ok tt, out ++ LF ++ "Download complete, now post-processing..." ++ LF).
Proof.
  unfold progress_hook, dict_index. rewrite Hstatus. cbv [mbind io_bind lift].
  change (py_eq_str (PyStr "finished") "downloading") with false.
  change (py_eq_str (PyStr "finished") "finished") with true.
  cbv iota. unfold print. now rewrite append_assoc.
Qed.

(** X8.  When the callback raises it has written nothing. *)
Theorem progress_hook_raise_silent (d : gmap string pyval) (out out' : string)
  (e : pyexc) (Hraise : progress_hook d out = (Raise e, out')) :
  out' = out.
Proof.
  destruct (d !! "status") as [v |] eqn:Hv.
  - destruct (py_eq_str v "downloading") eqn:Ed.
    + apply py_eq_str_true in Ed. subst v.
      rewrite (progress_hook_downloading d _ Hv) in Hraise.
      match type of Hraise with
      | match ?r with _ => _ end = _ => destruct r
      end; congruence.
    + unfold progress_hook, dict_index in Hraise. rewrite Hv in Hraise.
      cbv [mbind io_bind lift] in Hraise. rewrite Ed in Hraise.
      destruct (py_eq_str v "finished"); unfold print in Hraise;
        cbv [mret io_ret] in Hraise; congruence.
  - unfold progress_hook, dict_index in Hraise. rewrite Hv in Hraise.
    cbv [mbind io_bind lift] in Hraise. congruence.
Qed.

Lemma progress_hook_raise_silent_witness :
  progress_hook huge_event "abc" = (Raise OverflowError, "abc")
  /\ "abc" = "abc".
Proof.
  assert (H : progress_hook huge_event "abc" = (Raise OverflowError, "abc"))
    by (vm_compute; reflexivity).
  exact (conj H (progress_hook_raise_silent huge_event "abc" "abc" _ H)).
Defined.

Lemma not_in_hook_keys key :
  ~ In key hook_keys ->
  key <> "status" /\ key <> "_percent_str" /\ key <> "_speed_str"
  /\ key <> "_eta_str" /\ key <> "total_bytes"
  /\ key <> "total_bytes_estimated" /\ key <> "downloaded_bytes".
Proof.
  intros H. repeat split; intros ->; apply H; cbn; tauto.
Qed.

(** X9.  The callback reads seven entries of the event and no other:
    adding, changing or removing any other entry changes nothing. *)
Theorem progress_hook_reads_only (d : gmap string pyval) (key : string)
  (v : pyval) (out : string) (Hkey : ~ In key hook_keys) :
  progress_hook (<[key := v]> d) out = progress_hook d out
  /\ progress_hook (delete key d) out = progress_hook d out.
Proof.
  destruct (not_in_hook_keys key Hkey) as (H1 & H2 & H3 & H4 & H5 & H6 & H7).
  unfold progress_hook, size_str, total_of, downloaded_of, dict_index, dict_get,
    dict_get_default.
  split.
  - now rewrite !lookup_insert_ne by congruence.
  - now rewrite !lookup_delete_ne by congruence.
Qed.

Lemma progress_hook_reads_only_witness :
  ~ In "total_bytes_estimate" hook_keys
  /\ progress_hook (<["total_bytes_estimate" := PyInt 4096]> no_total_event) ""
     = progress_hook no_total_event ""
  /\ progress_hook (delete "total_bytes_estimate" no_total_event) ""
     = progress_hook no_total_event "".
Proof.
  assert (H : ~ In "total_bytes_estimate" hook_keys).
  { cbn. intros H. repeat (destruct H as [H | H]; [discriminate H |]). exact H. }
  exact (conj H (progress_hook_reads_only no_total_event "total_bytes_estimate"
                  (PyInt 4096) "" H)).
Defined.

Lemma progress_hook_finished_witness :
  <["status" := PyStr "finished"]> huge_event !! "status" = Some (PyStr "finished")
  /\ progress_hook (<["status" := PyStr "finished"]> huge_event) ""
     = (Ok tt, "" ++ LF ++ "Download complete, now post-processing..." ++ LF).
Proof.
  assert (H : <["status" := PyStr "finished"]> huge_event !! "status"
              = Some (PyStr "finished")) by (vm_compute; reflexivity).
  exact (conj H (progress_hook_finished _ "" H)).
Defined.

(** ** The size field *)

(** X10.  A non-zero exact total hides the estimate: whatever the
    estimate is, or without one, the size field is "downloaded / total"
    with the exact total. *)
Theorem exact_total_hides_estimate (d : gmap string pyval) (total v : pyval)
  (Htotal : d !! "total_bytes" = Some total)
  (Hnonzero : py_truthy total = true) :
  size_str (<["total_bytes_estimated" := v]> d) = size_str d
  /\ size_str (delete "total_bytes_estimated" d) = size_str d
  /\ size_str d = downloaded_slash_total (downloaded_of d) total.
Proof.
  rewrite !size_str_unfold.
  unfold total_of, downloaded_of, dict_get, dict_get_default, py_or.
  rewrite (lookup_insert_ne d "total_bytes_estimated" "total_bytes") by discriminate.
  rewrite (lookup_insert_ne d "total_bytes_estimated" "downloaded_bytes") by discriminate.
  rewrite (lookup_delete_ne d "total_bytes_estimated" "total_bytes") by discriminate.
  rewrite (lookup_delete_ne d "total_bytes_estimated" "downloaded_bytes") by discriminate.
  rewrite Htotal, Hnonzero. rewrite Hnonzero. auto.
Qed.

Lemma exact_total_hides_estimate_witness :
  overshoot_event !! "total_bytes" = Some (PyInt 1000)
  /\ py_truthy (PyInt 1000) = true
  /\ size_str (<["total_bytes_estimated" := PyInt 5]> overshoot_event)
     = size_str overshoot_event
  /\ size_str (delete "total_bytes_estimated" overshoot_event)
     = size_str overshoot_event
  /\ size_str overshoot_event
     = downloaded_slash_total (downloaded_of overshoot_event) (PyInt 1000).
Proof.
  assert (H1 : overshoot_event !! "total_bytes" = Some (PyInt 1000))
    by (vm_compute; reflexivity).
  assert (H2 : py_truthy (PyInt 1000) = true) by reflexivity.
  exact (conj H1 (conj H2
           (exact_total_hides_estimate overshoot_event (PyInt 1000) (PyInt 5) H1 H2))).
Defined.






(** ** All of the engine options *)

(** X12.  Whatever the format and the flags, the engine options keep the
    output template, the two retry counts of 10, the resume and warning
    switches, the playlist restriction and the progress hook. *)
Theorem engine_options_fixed (a : args) :
  engine_options a !! "outtmpl" = Some (OStr (args_output a))
  /\ engine_options a !! "retries" = Some (OInt 10)
  /\ engine_options a !! "fragment_retries" = Some (OInt 10)
  /\ engine_options a !! "continuedl" = Some (OBool true)
  /\ engine_options a !! "no_warnings" = Some (OBool true)
  /\ engine_options a !! "noplaylist" = Some (OBool (args_no_playlist a))
  /\ engine_options a !! "progress_hooks" = Some (OHooks [ProgressHook]).
Proof.
  assert (H : forall key, key <> "simulate" -> key <> "quiet" -> key <> "listformats" ->
                key <> "format" -> key <> "postprocessors" ->
                engine_options a !! key = initial_opts a !! key).
  { intros key H1 H2 H3 H4 H5. unfold engine_options.
    rewrite select_listing_lookup by assumption.
    unfold select_format.
    repeat match goal with
           | |- context [if ?b then _ else _] => destruct b
           end; now rewrite ?lookup_insert_ne by congruence. }
  repeat split; (rewrite H by discriminate); unfold initial_opts;
    rewrite ?lookup_insert_ne by discriminate; now rewrite lookup_insert_eq.
Qed.

(** X13.  The listing switches follow [--list-formats] and nothing else:
    [quiet] is the flag, [simulate] and [listformats] are set with it and
    absent without it. *)
Theorem listing_options (a : args) :
  engine_options a !! "quiet" = Some (OBool (args_list_formats a))
  /\ engine_options a !! "simulate"
     = (if args_list_formats a then Some (OBool true) else None)
  /\ engine_options a !! "listformats"
     = (if args_list_formats a then Some (OBool true) else None).
Proof.
  assert (H : forall key, key <> "format" -> key <> "postprocessors" ->
                select_format (args_format a) (initial_opts a) !! key
                = initial_opts a !! key).
  { intros key H4 H5. unfold select_format.
    repeat match goal with
           | |- context [if ?b then _ else _] => destruct b
           end; now rewrite ?lookup_insert_ne by congruence. }
  unfold engine_options, select_listing.
  destruct (args_list_formats a).
  - repeat split.
    + rewrite lookup_insert_ne by discriminate. now rewrite lookup_insert_eq.
    + now rewrite lookup_insert_eq.
    + rewrite !lookup_insert_ne by discriminate. now rewrite lookup_insert_eq.
  - rewrite !H by discriminate. unfold initial_opts.
    repeat split; rewrite ?lookup_insert_ne by discriminate;
      rewrite ?lookup_insert_eq; reflexivity.
Qed.

(** X14.  A post-processor is configured for the format [audio], and it
    is the audio extraction; for every other format there is none. *)
Theorem postprocessors_iff_audio (a : args) :
  engine_options a !! "postprocessors"
  = (if String.eqb (args_format a) "audio" then Some (ODicts [extract_audio]) else None).
Proof.
  unfold engine_options. rewrite select_listing_lookup by discriminate.
  unfold select_format. generalize (initial_opts_no_postprocessors a).
  generalize (initial_opts a) (args_format a). intros m fmt Hm.
  repeat match goal with
         | |- context [String.eqb fmt ?c] =>
             destruct (String.eqb_spec fmt c) as [Heq | _];
             [subst fmt; cbn [String.eqb Ascii.eqb Bool.eqb];
              rewrite ?lookup_insert_ne by discriminate;
              first [exact Hm | apply lookup_insert_eq] |]
         end.
  exact Hm.
Qed.

Lemma in_choices_true v choices : in_choices v choices = true -> In v choices.
Proof.
  unfold in_choices. intros H. apply existsb_exists in H.
  destruct H as (c & Hc & Heq). apply String.eqb_eq in Heq. now subst.
Qed.

Lemma parse_args_format cl a :
  parse_args cl = Some a -> In (args_format a) format_choices.
Proof.
  unfold parse_args. destruct (cl_url cl) as [url |]; [| discriminate].
  destruct (cl_format cl) as [v |].
  - destruct (in_choices v format_choices) eqn:E; [| discriminate].
    intros [= <-]. now apply in_choices_true.
  - intros [= <-]. cbn. tauto.
Qed.

(** X15.  Every command line that argparse accepts carries one of the six
    choices and gets a non-empty selector: the choices are the cases of
    the [if]/[elif] chain. *)
Theorem accepted_format_selected (cl : cmdline) (a : args)
  (Hargs : parse_args cl = Some a) :
  In (args_format a) format_choices
  /\ exists selector,
       engine_options a !! "format" = Some (OStr selector) /\ selector <> "".
Proof.
  pose proof (parse_args_format cl a Hargs) as Hin. split; [exact Hin |].
  unfold engine_options. rewrite select_listing_lookup by discriminate.
  cbn in Hin.
  destruct Hin as [<- | [<- | [<- | [<- | [<- | [<- | []]]]]]];
    eexists; (split; [ cbv [select_format String.eqb Ascii.eqb Bool.eqb];
                       rewrite ?lookup_insert_ne by discriminate;
                       apply lookup_insert_eq
                     | discriminate ]).
Qed.

Lemma accepted_format_selected_witness :
  parse_args cmdline_1080 = Some args_1080
  /\ In (args_format args_1080) format_choices
  /\ exists selector,
       engine_options args_1080 !! "format" = Some (OStr selector) /\ selector <> "".
Proof.
  assert (H : parse_args cmdline_1080 = Some args_1080) by reflexivity.
  exact (conj H (accepted_format_selected cmdline_1080 args_1080 H)).
Defined.

(** ** Durations *)

Lemma pretty_N_two_digits (x : N) :
  (10 <= x)%N -> (2 <= String.length (pretty x))%nat.
Proof.
  intros H. unfold pretty, pretty_N.
  destruct (decide (x = 0%N)) as [-> | _]; [lia |].
  rewrite pretty_N_go_step by lia.
  rewrite pretty_N_go_step by (apply N.div_str_pos; lia).
  etransitivity; [| apply pretty_N_go_length]. simpl. lia.
Qed.

Lemma pretty_Z_two_digits (z : Z) :
  10 <= z -> (2 <= String.length (pretty z))%nat.
Proof.
  destruct z as [| q | q]; try lia. intros H.
  unfold pretty, pretty_Z. apply pretty_N_two_digits. lia.
Qed.

Lemma pretty_Z_neg (n : Z) : n < 0 -> pretty n = "-" ++ pretty (Z.abs n).
Proof. destruct n as [| q | q]; try lia. intros _. reflexivity. Qed.

(** [f"{n:02d}"] is the clock field of [n]. *)
Lemma format_d_zero_clock_field n :
  Z.abs n < int_str_limit -> format_d_zero 2 n = Ok (clock_field n).
Proof.
  intros H. unfold format_d_zero, clock_field.
  destruct (Z.leb_spec int_str_limit (Z.abs n)); [lia |]. clear H.
  destruct (Z.ltb_spec n 0) as [Hneg | Hpos].
  - replace (0 <=? n) with false by (symmetry; apply Z.leb_gt; lia).
    cbn [andb]. rewrite pad_left_wide by apply pretty_Z_length.
    now rewrite <- pretty_Z_neg.
  - replace (0 <=? n) with true by (symmetry; apply Z.leb_le; lia).
    cbn [andb]. destruct (Z.ltb_spec n 10) as [Hlt | Hge].
    + assert (Hall : forallb (fun k => String.eqb
                                         (pad_left "0" 2 (pretty (Z.of_nat k)))
                                         ("0" ++ pretty (Z.of_nat k)))
                       (seq 0 10) = true) by (vm_compute; reflexivity).
      rewrite forallb_forall in Hall. specialize (Hall (Z.to_nat n)).
      rewrite Z2Nat.id in Hall by lia.
      f_equal. apply String.eqb_eq, Hall, in_seq. lia.
    + rewrite pad_left_wide by (apply pretty_Z_two_digits; lia). reflexivity.
Qed.

Lemma format_d_zero_long n :
  int_str_limit <= Z.abs n -> format_d_zero 2 n = Raise int_str_error.
Proof.
  intros H. unfold format_d_zero.
  destruct (Z.leb_spec int_str_limit (Z.abs n)); [reflexivity | lia].
Qed.

Lemma clock_field_length n : (2 <= String.length (clock_field n))%nat.
Proof.
  unfold clock_field.
  destruct (Z.leb_spec 0 n) as [Hpos | Hneg]; cbn [andb].
  - destruct (Z.ltb_spec n 10) as [Hlt | Hge].
    + change (String.length ("0" ++ pretty n)) with (S (String.length (pretty n))).
      pose proof (pretty_Z_length n). lia.
    + apply pretty_Z_two_digits. exact Hge.
  - rewrite pretty_Z_neg by exact Hneg.
    change (String.length ("-" ++ pretty (Z.abs n)))
      with (S (String.length (pretty (Z.abs n)))).
    pose proof (pretty_Z_length (Z.abs n)). lia.
Qed.

(** A number below 60 shows on exactly two digits. *)
Lemma clock_field_two_digits n :
  0 <= n < 60 -> String.length (clock_field n) = 2%nat.
Proof.
  intros Hn.
  assert (H : forallb (fun k => Nat.eqb (String.length (clock_field (Z.of_nat k))) 2)
                (seq 0 60) = true) by (vm_compute; reflexivity).
  rewrite forallb_forall in H. specialize (H (Z.to_nat n)).
  rewrite Z2Nat.id in H by lia. apply Nat.eqb_eq, H, in_seq. lia.
Qed.

Lemma hours_of_minutes n : n / 60 / 60 = n / 3600.
Proof. rewrite Z.div_div by lia. reflexivity. Qed.

Lemma minutes_of_hour n : (n / 60) mod 60 = n mod 3600 / 60.
Proof.
  pose proof (Z.div_mod n 60 ltac:(lia)) as H1.
  pose proof (Z.mod_pos_bound n 60 ltac:(lia)) as H2.
  pose proof (Z.div_mod (n / 60) 60 ltac:(lia)) as H3.
  pose proof (Z.mod_pos_bound (n / 60) 60 ltac:(lia)) as H4.
  rewrite hours_of_minutes in H3.
  assert (H5 : n mod 3600 = 60 * ((n / 60) mod 60) + n mod 60).
  { symmetry. apply Z.mod_unique with (q := n / 3600); lia. }
  apply Z.div_unique with (r := n mod 60); lia.
Qed.

Lemma clock_parts n :
  n = 3600 * (n / 3600) + 60 * (n mod 3600 / 60) + n mod 60
  /\ 0 <= n mod 3600 / 60 < 60 /\ 0 <= n mod 60 < 60.
Proof.
  rewrite <- minutes_of_hour.
  pose proof (Z.div_mod n 60 ltac:(lia)) as H1.
  pose proof (Z.mod_pos_bound n 60 ltac:(lia)) as H2.
  pose proof (Z.div_mod (n / 60) 60 ltac:(lia)) as H3.
  pose proof (Z.mod_pos_bound (n / 60) 60 ltac:(lia)) as H4.
  rewrite hours_of_minutes in H3. lia.
Qed.

(** The two [divmod] and the two f-strings on an integer. *)
Lemma duration_str_unfold n :
  duration_str (PyInt n) =
  (dur_str ← (if negb (n / 3600 =? 0)
              then h ← format_d_zero 2 (n / 3600); Ok (h ++ ":")
              else Ok "");
   m ← format_d_zero 2 (n mod 3600 / 60);
   s ← format_d_zero 2 (n mod 60);
   Ok (dur_str ++ m ++ ":" ++ s)).
Proof.
  unfold duration_str.
  cbn [divmod_60 mbind result_bind py_truthy py_format_d_zero].
  now rewrite hours_of_minutes, minutes_of_hour.
Qed.

Lemma duration_str_int n :
  Z.abs (n / 3600) < int_str_limit -> duration_str (PyInt n) = Ok (clock n).
Proof.
  intros H. rewrite duration_str_unfold. unfold clock.
  destruct (clock_parts n) as (_ & Hm & Hs).
  pose proof int_str_limit_large as Hl.
  rewrite (format_d_zero_clock_field (n mod 3600 / 60)) by lia.
  rewrite (format_d_zero_clock_field (n mod 60)) by lia.
  destruct (n / 3600 =? 0); cbn [negb mbind result_bind]; [reflexivity |].
  rewrite (format_d_zero_clock_field (n / 3600)) by exact H.
  cbn [mbind result_bind]. now rewrite !append_assoc.
Qed.

Lemma duration_str_long n :
  int_str_limit <= Z.abs (n / 3600) -> duration_str (PyInt n) = Raise int_str_error.
Proof.
  intros H. rewrite duration_str_unfold.
  pose proof int_str_limit_large as Hl.
  replace (n / 3600 =? 0) with false by (symmetry; apply Z.eqb_neq; lia).
  cbn [negb]. now rewrite (format_d_zero_long _ H).
Qed.

(** The presentation type [d] refuses the floats that [divmod] returns
    for a float. *)
Lemma duration_str_float x :
  duration_str (PyFloat x)
  = Raise (ValueError "Unknown format code 'd' for object of type 'float'").
Proof.
  unfold duration_str. cbn [divmod_60].
  destruct (float_divmod_60 x) as [q r]. cbn [mbind result_bind divmod_60].
  destruct (float_divmod_60 q) as [q' r']. cbn [mbind result_bind].
  destruct (py_truthy (PyFloat q')); reflexivity.
Qed.

(** X19.  [dur_str] is the clock reading of an integer duration, for
    every integer whose hours have at most 4300 digits: with
    [h = d / 3600], [m = d mod 3600 / 60] and [s = d mod 60] it is [h]
    on at least two digits and a colon (left out when [h] is zero), then
    [m], a colon and [s], each on exactly two digits, a leading zero
    below 10. *)
Theorem duration_str_clock (duration : Z)
  (Hd : Z.abs (duration / 3600) < int_str_limit) :
  let h := duration / 3600 in
  let m := duration mod 3600 / 60 in
  let s := duration mod 60 in
  duration = 3600 * h + 60 * m + s
  /\ 0 <= m < 60 /\ 0 <= s < 60
  /\ duration_str (PyInt duration)
     = Ok ((if h =? 0 then "" else clock_field h ++ ":")
           ++ clock_field m ++ ":" ++ clock_field s)
  /\ (2 <= String.length (clock_field h))%nat
  /\ String.length (clock_field m) = 2%nat
  /\ String.length (clock_field s) = 2%nat
  /\ duration_str (PyInt 3725) = Ok "01:02:05".
Proof.
  cbv zeta. destruct (clock_parts duration) as (H & Hm & Hs).
  split; [exact H |]. split; [exact Hm |]. split; [exact Hs |].
  split; [exact (duration_str_int duration Hd) |].
  split; [apply clock_field_length |].
  split; [apply clock_field_two_digits; assumption |].
  split; [apply clock_field_two_digits; assumption |].
  vm_compute. reflexivity.
Qed.

Lemma duration_str_clock_witness :
  Z.abs (3725 / 3600) < int_str_limit
  /\ (let h := 3725 / 3600 in
      let m := 3725 mod 3600 / 60 in
      let s := 3725 mod 60 in
      3725 = 3600 * h + 60 * m + s
      /\ 0 <= m < 60 /\ 0 <= s < 60
      /\ duration_str (PyInt 3725)
         = Ok ((if h =? 0 then "" else clock_field h ++ ":")
               ++ clock_field m ++ ":" ++ clock_field s)
      /\ (2 <= String.length (clock_field h))%nat
      /\ String.length (clock_field m) = 2%nat
      /\ String.length (clock_field s) = 2%nat
      /\ duration_str (PyInt 3725) = Ok "01:02:05").
Proof.
  assert (H : Z.abs (3725 / 3600) < int_str_limit) by (vm_compute; reflexivity).
  exact (conj H (duration_str_clock 3725 H)).
Defined.

(** 3725 seconds read "01:02:05", 59 seconds "00:59", and 360000
    seconds "100:00:00". *)
Example clock_values :
  clock 3725 = "01:02:05" /\ clock 59 = "00:59" /\ clock 360000 = "100:00:00".
Proof. repeat split; vm_compute; reflexivity. Qed.

(** ** Runs of [main] *)

(** The title has a text unless it is an integer of more than 4300
    digits. *)
Lemma title_outcome (o : option pyval) (s : string) :
  (substitutable o
   /\ py_str (default (PyStr s) o) = Ok (str_text (default (PyStr s) o)))
  \/ (~ substitutable o /\ py_str (default (PyStr s) o) = Raise int_str_error).
Proof.
  unfold substitutable.
  destruct o as [[| n | x | t] |]; cbn [default from_option id];
    try (left; split; [exact I | reflexivity]).
  unfold py_str. destruct (Z.leb_spec int_str_limit (Z.abs n)).
  - right. split; [lia | reflexivity].
  - left. split; [assumption | reflexivity].
Qed.

(** What becomes of the duration: no line, the clock reading, or an
    exception out of [divmod] or of the f-strings. *)
Lemma duration_outcome (o : option pyval) :
  match reported o with
  | None => py_truthy (default (PyInt 0) o) = false
  | Some v =>
      default (PyInt 0) o = v /\ py_truthy v = true
      /\ match v with
         | PyInt n =>
             (Z.abs (n / 3600) < int_str_limit /\ duration_str v = Ok (clock n))
             \/ (~ Z.abs (n / 3600) < int_str_limit
                 /\ duration_str v = Raise int_str_error)
         | _ => exists e, duration_str v = Raise e
         end
  end.
Proof.
  pose proof (reported_truthy o) as H.
  destruct (reported o) as [v |].
  - destruct H as [-> Ht]. split; [reflexivity |]. split; [exact Ht |].
    destruct v as [| n | x | s].
    + discriminate Ht.
    + destruct (Z.lt_ge_cases (Z.abs (n / 3600)) int_str_limit) as [Hl | Hl].
      * left. split; [exact Hl | exact (duration_str_int n Hl)].
      * right. split; [lia | exact (duration_str_long n Hl)].
    + rewrite duration_str_float. eauto.
    + eexists. reflexivity.
  - destruct o as [[| n | x | s] |]; cbn [default from_option id] in *;
      try exact H; reflexivity.
Qed.

(** The summary is printed in full when the record renders; otherwise
    an exception leaves it. *)
Lemma print_summary_outcome i out :
  (summary_renders i /\ print_summary i out = (Ok tt, out ++ summary_text i))
  \/ (~ summary_renders i /\ exists e out', print_summary i out = (Raise e, out')).
Proof.
  unfold summary_renders, summary_text, print_summary, duration_renders.
  destruct (info_entries i) as [entries |].
  - destruct (title_outcome (info_title i) "Unknown") as [[Ht ->] | [Ht ->]];
      cbv [mbind io_bind lift print].
    2: { right. split; [tauto | eauto]. }
    unfold py_str.
    destruct (Z.leb_spec int_str_limit (Z.abs (Z.of_nat (length entries)))) as [Hl | Hl].
    + right. split; [lia | eauto].
    + left. split; [split; [exact Ht | lia] |].
      cbn [str_text]. now rewrite !append_assoc.
  - destruct (title_outcome (info_title i) "Unknown title") as [[Ht ->] | [Ht ->]];
      cbv [mbind io_bind lift print].
    2: { right. split; [tauto | eauto]. }
    pose proof (duration_outcome (info_duration i)) as Hd.
    destruct (reported (info_duration i)) as [v |].
    + destruct Hd as (-> & Hv & Hd). rewrite Hv.
      destruct v as [| n | x | s].
      * destruct Hd as [e ->]. right. split; [tauto | eauto].
      * destruct Hd as [[Hl ->] | [Hl ->]].
        -- left. split; [tauto |]. now rewrite !append_assoc.
        -- right. split; [tauto | eauto].
      * destruct Hd as [e ->]. right. split; [tauto | eauto].
      * destruct Hd as [e ->]. right. split; [tauto | eauto].
    + rewrite Hd. left. split; [tauto |]. cbv [mret io_ret].
      now rewrite !append_assoc, append_empty_r.
Qed.

(** [main] once the arguments are accepted. *)
Lemma main_accepted e cl a :
  parse_args cl = Some a ->
  main e cl =
  match main_try e a (engine_options a) "" with
  | (Ok _, out) => (Returns, out)
  | (Raise exc, out) =>
      match main_except exc out with
      | (Ok r, out') => (r, out')
      | (Raise exc', out') => (Propagates exc', out')
      end
  end.
Proof. intros H. unfold main. now rewrite H. Qed.


(** The body of the [try] statement: the engine's failure, or after its
    answer the summary unless formats are listed. *)
Lemma main_try_outcome e a :
  match YoutubeDL e (engine_options a),
        extract_info e (engine_options a) (args_url a) (negb (args_list_formats a))
  with
  | (log0, Raise exc), _ =>
      main_try e a (engine_options a) "" = (Raise exc, log0)
  | (log0, Ok _), (log, Raise exc) =>
      main_try e a (engine_options a) ""
      = (Raise exc, log0 ++ LF ++ "Fetching info... " ++ args_url a ++ LF ++ log)
  | (log0, Ok _), (log, Ok i) =>
      main_try e a (engine_options a) ""
      = if args_list_formats a
        then (Ok tt, log0 ++ LF ++ "Fetching info... " ++ args_url a ++ LF ++ log)
        else print_summary i
               (log0 ++ LF ++ "Fetching info... " ++ args_url a ++ LF ++ log)
  end.
Proof.
  unfold main_try, call, print. cbv [mbind io_bind].
  destruct (YoutubeDL e (engine_options a)) as [log0 [[] | exc0]];
    destruct (extract_info e (engine_options a) (args_url a)
                (negb (args_list_formats a))) as [log [i | exc]];
    cbn [fst snd String.append]; try reflexivity.
  - rewrite !append_assoc.
    destruct (args_list_formats a); reflexivity.
  - now rewrite !append_assoc.
Qed.


(** X18.  With [--list-formats] the engine is called with
    [download=False] and with the simulate and listformats options set,
    and [main] prints nothing after the engine's own output, whatever
    record comes back. *)
Theorem list_formats_run (e : engine) (cl : cmdline) (a : args)
  (log0 log : string) (i : info)
  (Hargs : parse_args cl = Some a)
  (Hlist : args_list_formats a = true)
  (Hopen : YoutubeDL e (engine_options a) = (log0, Ok tt))
  (Hextract : extract_info e (engine_options a) (args_url a) false = (log, Ok i)) :
  main e cl
  = (Returns, log0 ++ LF ++ "Fetching info... " ++ args_url a ++ LF ++ log)
  /\ engine_options a !! "simulate" = Some (OBool true)
  /\ engine_options a !! "listformats" = Some (OBool true).
Proof.
  split.
  2: { unfold engine_options, select_listing. rewrite Hlist.
       rewrite lookup_insert_eq, lookup_insert_ne, lookup_insert_ne,
         lookup_insert_eq by discriminate. auto. }
  unfold main. rewrite Hargs. cbv zeta.
  unfold main_try, call, print. cbv [mbind io_bind].
  rewrite Hopen, Hlist. cbn [negb]. rewrite Hextract.
  cbn [fst snd]. cbv [mret io_ret]. now rewrite !append_assoc.
Qed.

Lemma list_formats_run_witness :
  parse_args cmdline_listing = Some args_listing
  /\ args_list_formats args_listing = true
  /\ YoutubeDL (answering_engine some_video) (engine_options args_listing) = ("", Ok tt)
  /\ extract_info (answering_engine some_video) (engine_options args_listing)
       (args_url args_listing) false = ("", Ok some_video)
  /\ main (answering_engine some_video) cmdline_listing
     = (Returns, "" ++ LF ++ "Fetching info... " ++ args_url args_listing ++ LF ++ "")
  /\ engine_options args_listing !! "simulate" = Some (OBool true)
  /\ engine_options args_listing !! "listformats" = Some (OBool true).
Proof.
  assert (H1 : parse_args cmdline_listing = Some args_listing) by reflexivity.
  assert (H2 : args_list_formats args_listing = true) by reflexivity.
  assert (H3 : YoutubeDL (answering_engine some_video) (engine_options args_listing)
               = ("", Ok tt)) by reflexivity.
  assert (H4 : extract_info (answering_engine some_video) (engine_options args_listing)
                 (args_url args_listing) false = ("", Ok some_video)) by reflexivity.
  exact (conj H1 (conj H2 (conj H3 (conj H4
           (list_formats_run (answering_engine some_video) cmdline_listing
              args_listing "" "" some_video H1 H2 H3 H4))))).
Defined.

(** X20.  A run that succeeds without [--list-formats], on a record whose
    summary can be printed: after the engine's output [main] prints, for
    a playlist, its title and the number of its entries, and for a
    single video its title and, when the duration is a non-zero integer,
    its clock reading; then it returns. *)
Theorem successful_run (e : engine) (cl : cmdline) (a : args)
  (log0 log : string) (i : info)
  (Hargs : parse_args cl = Some a)
  (Hlist : args_list_formats a = false)
  (Hopen : YoutubeDL e (engine_options a) = (log0, Ok tt))
  (Hextract : extract_info e (engine_options a) (args_url a) true = (log, Ok i))
  (Hsummary : summary_renders i) :
  main e cl
  = (Returns,
     (log0 ++ LF ++ "Fetching info... " ++ args_url a ++ LF ++ log)
     ++ match info_entries i with
        | Some entries =>
            LF ++ "Playlist: "
               ++ str_text (default (PyStr "Unknown") (info_title i)) ++ LF
            ++ "Found " ++ pretty (Z.of_nat (length entries)) ++ " videos" ++ LF ++ LF
        | None =>
            LF ++ "Title: "
               ++ str_text (default (PyStr "Unknown title") (info_title i)) ++ LF
            ++ match reported (info_duration i) with
               | Some (PyInt duration) => "Duration: " ++ clock duration ++ LF
               | _ => ""
               end
        end).
Proof.
  rewrite (main_accepted e cl a Hargs).
  pose proof (main_try_outcome e a) as H.
  rewrite Hopen, Hlist in H. cbn [negb] in H. rewrite Hextract in H.
  rewrite H.
  destruct (print_summary_outcome i
              (log0 ++ LF ++ "Fetching info... " ++ args_url a ++ LF ++ log))
    as [[_ ->] | [Hn _]]; [reflexivity | contradiction].
Qed.

Lemma successful_run_witness :
  parse_args cmdline_plain = Some args_plain
  /\ args_list_formats args_plain = false
  /\ YoutubeDL (answering_engine some_video) (engine_options args_plain) = ("", Ok tt)
  /\ extract_info (answering_engine some_video) (engine_options args_plain)
       (args_url args_plain) true = ("", Ok some_video)
  /\ summary_renders some_video
  /\ main (answering_engine some_video) cmdline_plain
     = (Returns,
        ("" ++ LF ++ "Fetching info... " ++ args_url args_plain ++ LF ++ "")
        ++ LF ++ "Title: " ++ "Never Gonna Give You Up" ++ LF
        ++ "Duration: " ++ clock 213 ++ LF).
Proof.
  assert (H1 : parse_args cmdline_plain = Some args_plain) by reflexivity.
  assert (H2 : args_list_formats args_plain = false) by reflexivity.
  assert (H3 : YoutubeDL (answering_engine some_video) (engine_options args_plain)
               = ("", Ok tt)) by reflexivity.
  assert (H4 : extract_info (answering_engine some_video) (engine_options args_plain)
                 (args_url args_plain) true = ("", Ok some_video)) by reflexivity.
  assert (H5 : summary_renders some_video)
    by (split; [exact I | vm_compute; reflexivity]).
  exact (conj H1 (conj H2 (conj H3 (conj H4 (conj H5
           (successful_run (answering_engine some_video) cmdline_plain args_plain
              "" "" some_video H1 H2 H3 H4 H5)))))).
Defined.

(** The run on the video of three minutes and 33 seconds, and on a
    playlist of two entries without a title. *)
Example video_run :
  main (answering_engine some_video) cmdline_plain
  = (Returns,
     LF ++ "Fetching info... https://youtu.be/dQw4w9WgXcQ" ++ LF
     ++ LF ++ "Title: Never Gonna Give You Up" ++ LF
     ++ "Duration: 03:33" ++ LF).
Proof. vm_compute. reflexivity. Qed.

Example playlist_run :
  main (answering_engine (Info None None (Some [some_video; float_video]))) cmdline_plain
  = (Returns,
     LF ++ "Fetching info... https://youtu.be/dQw4w9WgXcQ" ++ LF
     ++ LF ++ "Playlist: Unknown" ++ LF
     ++ "Found 2 videos" ++ LF ++ LF).
Proof. vm_compute. reflexivity. Qed.

(** X21.  A single video whose duration is a non-zero float: [main]
    prints the title, the f-string of the duration raises ValueError
    inside the [try] statement, and [main] reports it as an unexpected
    error and exits with status 1 although the engine succeeded. *)
Theorem float_duration_run (e : engine) (cl : cmdline) (a : args)
  (log0 log : string) (i : info) (x : spec_float)
  (Hargs : parse_args cl = Some a)
  (Hlist : args_list_formats a = false)
  (Hopen : YoutubeDL e (engine_options a) = (log0, Ok tt))
  (Hextract : extract_info e (engine_options a) (args_url a) true = (log, Ok i))
  (Hvideo : info_entries i = None)
  (Htitle : substitutable (info_title i))
  (Hduration : info_duration i = Some (PyFloat x))
  (Hnonzero : float_is_zero x = false) :
  main e cl
  = (Exits 1,
     (log0 ++ LF ++ "Fetching info... " ++ args_url a ++ LF ++ log)
     ++ LF ++ "Title: "
        ++ str_text (default (PyStr "Unknown title") (info_title i)) ++ LF
     ++ LF ++ "Unexpected error: ValueError: "
        ++ "Unknown format code 'd' for object of type 'float'" ++ LF).
Proof.
  rewrite (main_accepted e cl a Hargs).
  pose proof (main_try_outcome e a) as H.
  rewrite Hopen, Hlist in H. cbn [negb] in H. rewrite Hextract in H.
  rewrite H. unfold print_summary. rewrite Hvideo, Hduration.
  destruct (title_outcome (info_title i) "Unknown title") as [[_ ->] | [Hn _]];
    [| contradiction].
  cbn [default from_option id py_truthy]. rewrite Hnonzero.
  rewrite duration_str_float.
  cbv [mbind io_bind lift print negb].
  unfold main_except, print. cbn [exc_base_of ValueError].
  cbv [mbind io_bind mret io_ret]. cbn [exc_name exc_str ValueError].
  now rewrite !append_assoc.
Qed.

Lemma float_duration_run_witness :
  parse_args cmdline_plain = Some args_plain
  /\ args_list_formats args_plain = false
  /\ YoutubeDL (answering_engine float_video) (engine_options args_plain) = ("", Ok tt)
  /\ extract_info (answering_engine float_video) (engine_options args_plain)
       (args_url args_plain) true = ("", Ok float_video)
  /\ info_entries float_video = None
  /\ substitutable (info_title float_video)
  /\ info_duration float_video = Some (PyFloat (decimal_to_float 2135 (-1)))
  /\ float_is_zero (decimal_to_float 2135 (-1)) = false
  /\ main (answering_engine float_video) cmdline_plain
     = (Exits 1,
        ("" ++ LF ++ "Fetching info... " ++ args_url args_plain ++ LF ++ "")
        ++ LF ++ "Title: "
           ++ str_text (default (PyStr "Unknown title") (info_title float_video)) ++ LF
        ++ LF ++ "Unexpected error: ValueError: "
           ++ "Unknown format code 'd' for object of type 'float'" ++ LF).
Proof.
  assert (H1 : parse_args cmdline_plain = Some args_plain) by reflexivity.
  assert (H2 : args_list_formats args_plain = false) by reflexivity.
  assert (H3 : YoutubeDL (answering_engine float_video) (engine_options args_plain)
               = ("", Ok tt)) by reflexivity.
  assert (H4 : extract_info (answering_engine float_video) (engine_options args_plain)
                 (args_url args_plain) true = ("", Ok float_video)) by reflexivity.
  assert (H5 : info_entries float_video = None) by reflexivity.
  assert (H6 : substitutable (info_title float_video)) by exact I.
  assert (H7 : info_duration float_video
               = Some (PyFloat (decimal_to_float 2135 (-1)))) by reflexivity.
  assert (H8 : float_is_zero (decimal_to_float 2135 (-1)) = false)
    by (vm_compute; reflexivity).
  exact (conj H1 (conj H2 (conj H3 (conj H4 (conj H5 (conj H6 (conj H7 (conj H8
           (float_duration_run (answering_engine float_video) cmdline_plain
              args_plain "" "" float_video _ H1 H2 H3 H4 H5 H6 H7 H8))))))))).
Defined.

(** The same run as it is printed. *)
Example float_video_run :
  main (answering_engine float_video) cmdline_plain
  = (Exits 1,
     LF ++ "Fetching info... https://youtu.be/dQw4w9WgXcQ" ++ LF
     ++ LF ++ "Title: Never Gonna Give You Up" ++ LF
     ++ LF ++ "Unexpected error: ValueError: "
     ++ "Unknown format code 'd' for object of type 'float'" ++ LF).
Proof. vm_compute. reflexivity. Qed.

(** The exact rendering at 1536 bytes. *)
Lemma sizeof_fmt_exact_witness :
  0 <= 1536 < 2 ^ 53
  /\ (1%nat = 0%nat \/ 1024 ^ Z.of_nat 1 <= 1536)
  /\ 1536 < 1024 ^ (Z.of_nat 1 + 1)
  /\ sizeof_fmt (PyInt 1536) "B"
     = Ok (fixed_digits (exact_tenths 1536 1) 1 ++ nth 1 units "" ++ "B").
Proof.
  assert (H1 : 0 <= 1536 < 2 ^ 53) by (vm_compute; split; [discriminate | reflexivity]).
  assert (H2 : 1%nat = 0%nat \/ 1024 ^ Z.of_nat 1 <= 1536)
    by (right; vm_compute; discriminate).
  assert (H3 : 1536 < 1024 ^ (Z.of_nat 1 + 1)) by (vm_compute; reflexivity).
  exact (conj H1 (conj H2 (conj H3 (sizeof_fmt_exact 1536 1 "B" H1 H2 H3)))).
Defined.
